(** * The automatic grader of lab_grading (grader.py)

    A shallow embedding of [AutoGrader.check_answer], [AutoGrader._compare_answers]
    and [submit_answer], then of the loader and of [create_lab_functions], and
    the properties of the verification engine proved over it.

    The embedding follows the Python source line by line.  What Python leaves
    to its runtime is written out here:

    - plain data (what [json.loads] produces, and tuples) is the type [data];
      a submitted answer is a [value]: plain data, a callable, or an object
      that exposes attributes (a DataFrame, a Series, an array) and has an
      [==] of its own, whose truth value may be an error;
    - an error is an [exn] with its class and the text [str(e)] gives; a
      computation that may fail returns an [outcome], and [except Exception]
      catches the classes that derive from [Exception];
    - a submitted callable may read and change state of its own (globals,
      closure cells) and write on the console: that state is the [world],
      threaded through every call;
    - Python's [float] is the binary64 type [float] of the kernel, [int] is [Z],
      [str] is a [string] holding the UTF-8 bytes of the text (substrings and
      the order of strings are the same on bytes and on code points);
    - [repr] of plain data and [str.upper] only shape texts that are shown:
      they are parameters of the grader.

    The answers are an argument of [check_answer]; the loader that fetches
    them takes the network as a parameter.  Error texts are the ones
    CPython 3.11 prints. *)

From Stdlib Require Import ZArith List String Ascii Bool Lia Floats.
From Stdlib Require Import DecimalString Permutation.
From Stdlib Require DecimalZ.
Import ListNotations.

#[local] Set Warnings "-register-all,-inexact-float".

Local Open Scope string_scope.
Local Open Scope Z_scope.

(** ** Errors *)

(** The classes of the errors the grader can meet.  [UserException] stands for
    any other class that derives from [Exception] (a submitted callable may
    raise it); the last four derive from [BaseException] only. *)
Inductive exn_class : Type :=
| KeyError
| TypeError
| AttributeError
| OverflowError
| UserException (name : string)
| SystemExit
| KeyboardInterrupt
| GeneratorExit
| UserBaseException (name : string).

(** An error: its class and the text of [str(e)]. *)
Record exn : Type := mk_exn { exn_cls : exn_class; exn_str : string }.

(** [issubclass(c, Exception)]: what an [except Exception] clause catches. *)
Definition is_Exception (c : exn_class) : bool :=
  match c with
  | SystemExit | KeyboardInterrupt | GeneratorExit | UserBaseException _ => false
  | _ => true
  end.

Definition catchable (e : exn) : bool := is_Exception (exn_cls e).

Inductive outcome (A : Type) : Type :=
| Return (a : A)
| Raise (e : exn).
Arguments Return {A} a.
Arguments Raise {A} e.

Definition obind {A B : Type} (o : outcome A) (k : A -> outcome B) : outcome B :=
  match o with
  | Return a => k a
  | Raise e => Raise e
  end.

Definition type_error {A : Type} (msg : string) : outcome A := Raise (mk_exn TypeError msg).

(** ** Text *)

(** [sep.join(l)] is [String.concat sep l]. *)

Definition str_of_nat (n : nat) : string := NilEmpty.string_of_uint (Nat.to_uint n).
Definition str_of_Z (z : Z) : string := NilEmpty.string_of_int (Z.to_int z).

(** [pat in s] for two strings. *)
Fixpoint str_contains (pat s : string) : bool :=
  String.prefix pat s ||
  match s with
  | EmptyString => false
  | String _ s' => str_contains pat s'
  end.

(** A byte that continues a UTF-8 sequence: [10xxxxxx]. *)
Definition utf8_continuation (c : ascii) : bool :=
  let n := N_of_ascii c in (128 <=? n)%N && (n <? 192)%N.

(** The characters of a string, each with its continuation bytes: what
    iterating over a [str] yields. *)
Fixpoint str_chars_aux (cur : string) (s : string) : list string :=
  match s with
  | EmptyString => [cur]
  | String c s' =>
      if utf8_continuation c then str_chars_aux (cur ++ String c EmptyString) s'
      else cur :: str_chars_aux (String c EmptyString) s'
  end.

Definition str_chars (s : string) : list string :=
  match s with
  | EmptyString => []
  | String c s' => str_chars_aux (String c EmptyString) s'
  end.

(** ** Numbers *)

(** A number as arithmetic sees it: [bool] is a subclass of [int]. *)
Inductive num : Type :=
| NInt (z : Z)
| NFloat (f : float).

(** [float(z)]: the nearest binary64 value, ties to even; [OverflowError] when
    that is out of range. *)
Definition float_of_int (z : Z) : outcome float :=
  let f := SF2Prim (binary_normalize prec emax z 0 false) in
  if PrimFloat.is_infinity f
  then Raise (mk_exn OverflowError "int too large to convert to float")
  else Return f.

Definition to_float (n : num) : outcome float :=
  match n with
  | NInt z => float_of_int z
  | NFloat f => Return f
  end.

(** [a - b] *)
Definition num_sub (a b : num) : outcome num :=
  match a, b with
  | NInt x, NInt y => Return (NInt (x - y))
  | _, _ =>
      obind (to_float a) (fun fa =>
      obind (to_float b) (fun fb =>
      Return (NFloat (PrimFloat.sub fa fb))))
  end.

(** [abs(a)] *)
Definition num_abs (a : num) : num :=
  match a with
  | NInt x => NInt (Z.abs x)
  | NFloat f => NFloat (PrimFloat.abs f)
  end.

(** An [int] against a [float], compared on their exact values; [None] for
    a NaN. *)
Definition compare_int_float (z : Z) (f : float) : option comparison :=
  match Prim2SF f with
  | S754_nan => None
  | S754_infinity s => Some (if s then Gt else Lt)
  | S754_zero _ => Some (Z.compare z 0)
  | S754_finite s m e =>
      let v := cond_Zopp s (Zpos m) in
      Some (if 0 <=? e then Z.compare z (v * 2 ^ e) else Z.compare (z * 2 ^ (- e)) v)
  end.

(** [a == b], [a < b], [a <= b]: two integers as integers, two floats as
    binary64 does (every comparison with a NaN is false), an integer and a
    float on their exact values. *)
Definition num_eqb (a b : num) : bool :=
  match a, b with
  | NInt x, NInt y => x =? y
  | NFloat f, NFloat g => PrimFloat.eqb f g
  | NInt x, NFloat g => match compare_int_float x g with Some Eq => true | _ => false end
  | NFloat f, NInt y => match compare_int_float y f with Some Eq => true | _ => false end
  end.

Definition num_ltb (a b : num) : bool :=
  match a, b with
  | NInt x, NInt y => x <? y
  | NFloat f, NFloat g => PrimFloat.ltb f g
  | NInt x, NFloat g => match compare_int_float x g with Some Lt => true | _ => false end
  | NFloat f, NInt y => match compare_int_float y f with Some Gt => true | _ => false end
  end.

Definition num_leb (a b : num) : bool :=
  match a, b with
  | NInt x, NInt y => x <=? y
  | NFloat f, NFloat g => PrimFloat.leb f g
  | NInt x, NFloat g =>
      match compare_int_float x g with Some Lt | Some Eq => true | _ => false end
  | NFloat f, NInt y =>
      match compare_int_float y f with Some Gt | Some Eq => true | _ => false end
  end.

(** [k] written with at least four digits. *)
Definition pad4 (k : Z) : string :=
  let s := str_of_Z k in
  match String.length s with
  | 1%nat => "000" ++ s
  | 2%nat => "00" ++ s
  | 3%nat => "0" ++ s
  | _ => s
  end.

(** The integer nearest to [m * 2^e * 10^4], ties to even. *)
Definition scaled4 (m : positive) (e : Z) : Z :=
  if 0 <=? e then Zpos m * 2 ^ e * 10000
  else
    let n := Zpos m * 10000 in
    let d := 2 ^ (- e) in
    let q := n / d in
    let r := n mod d in
    match Z.compare (2 * r) d with
    | Lt => q
    | Gt => q + 1
    | Eq => if Z.even q then q else q + 1
    end.

(** [format(f, '.4f')] for a float: the exact value rounded to four decimals. *)
Definition format_float_4f (f : float) : string :=
  match Prim2SF f with
  | S754_nan => "nan"
  | S754_infinity s => if s then "-inf" else "inf"
  | S754_zero s => if s then "-0.0000" else "0.0000"
  | S754_finite s m e =>
      let n := scaled4 m e in
      (if s then "-" else "") ++ str_of_Z (n / 10000) ++ "." ++ pad4 (n mod 10000)
  end.

(** [f"{a:.4f}"]: an [int] is converted to [float] first. *)
Definition format_4f (a : num) : outcome string :=
  obind (to_float a) (fun f => Return (format_float_4f f)).

(** ** Plain data *)

(** The values of [json.loads], and tuples.  A [dict] keeps its entries in
    insertion order, with distinct keys; the keys of a JSON object are
    strings. *)
Inductive data : Type :=
| DNone
| DBool (b : bool)
| DInt (z : Z)
| DFloat (f : float)
| DStr (s : string)
| DList (l : list data)
| DTuple (l : list data)
| DDict (d : list (string * data)).

Definition dict : Type := list (string * data).

(** [d[k]] when present. *)
Fixpoint dict_get {A : Type} (k : string) (d : list (string * A)) : option A :=
  match d with
  | [] => None
  | (k', v) :: d' => if String.eqb k k' then Some v else dict_get k d'
  end.

(** [type(x).__name__] *)
Definition type_name (x : data) : string :=
  match x with
  | DNone => "NoneType"
  | DBool _ => "bool"
  | DInt _ => "int"
  | DFloat _ => "float"
  | DStr _ => "str"
  | DList _ => "list"
  | DTuple _ => "tuple"
  | DDict _ => "dict"
  end.

(** [isinstance(x, (int, float))], with the number it is. *)
Definition as_num (x : data) : option num :=
  match x with
  | DBool b => Some (NInt (Z.b2z b))
  | DInt z => Some (NInt z)
  | DFloat f => Some (NFloat f)
  | _ => None
  end.

(** Two sequences are equal when they have the same length and equal
    elements. *)
Fixpoint seq_eqb {A B : Type} (eq : A -> B -> bool) (la : list A) (lb : list B) : bool :=
  match la, lb with
  | [], [] => true
  | x :: la', y :: lb' => eq x y && seq_eqb eq la' lb'
  | _, _ => false
  end.

(** Every entry of [da] is in [db], with an equal value. *)
Fixpoint entries_eqb {A B : Type} (eq : A -> B -> bool)
    (da : list (string * A)) (db : list (string * B)) : bool :=
  match da with
  | [] => true
  | (k, v) :: da' =>
      match dict_get k db with
      | Some w => eq v w && entries_eqb eq da' db
      | None => false
      end
  end.

(** [a == b].  Numbers compare by value across [bool], [int] and [float];
    sequences element by element; dicts entry by entry, whatever the order.
    (Python first tests the elements of two sequences for identity; the two
    sides compared here never share an object: one comes from the answer
    file.) *)
Fixpoint py_eq (a b : data) {struct a} : bool :=
  match a, b with
  | DNone, DNone => true
  | DStr s, DStr t => String.eqb s t
  | DList la, DList lb => seq_eqb py_eq la lb
  | DTuple la, DTuple lb => seq_eqb py_eq la lb
  | DDict da, DDict db => Nat.eqb (List.length da) (List.length db) && entries_eqb py_eq da db
  | _, _ =>
      match as_num a, as_num b with
      | Some x, Some y => num_eqb x y
      | _, _ => false
      end
  end.

Definition unorderable {A : Type} (op : string) (ta tb : string) : outcome A :=
  type_error ("'" ++ op ++ "' not supported between instances of '" ++ ta ++ "' and '" ++ tb ++ "'").

(** Two sequences are ordered by the first position where they differ. *)
Fixpoint seq_ltb {A : Type} (eq : A -> A -> bool) (lt : A -> A -> outcome bool)
    (la lb : list A) : outcome bool :=
  match la, lb with
  | [], [] => Return false
  | [], _ :: _ => Return true
  | _ :: _, [] => Return false
  | x :: la', y :: lb' => if eq x y then seq_ltb eq lt la' lb' else lt x y
  end.

(** [a < b] *)
Fixpoint py_lt (a b : data) {struct a} : outcome bool :=
  match a, b with
  | DStr s, DStr t => Return (String.ltb s t)
  | DList la, DList lb => seq_ltb py_eq py_lt la lb
  | DTuple la, DTuple lb => seq_ltb py_eq py_lt la lb
  | _, _ =>
      match as_num a, as_num b with
      | Some x, Some y => Return (num_ltb x y)
      | _, _ => unorderable "<" (type_name a) (type_name b)
      end
  end.

(** [diff <= b] for a number [diff] (an [int] or a [float]). *)
Definition num_le_data (diff : num) (b : data) : outcome bool :=
  match as_num b with
  | Some y => Return (num_leb diff y)
  | None =>
      unorderable "<=" (match diff with NInt _ => "int" | NFloat _ => "float" end) (type_name b)
  end.

(** [sorted(l)]: a stable sort that only asks [x < y].  Each element is put
    before the first one it is smaller than, among those placed so far.  On
    elements that [<] orders totally every stable sort returns the same
    list, CPython's among them.  On other elements only this much is shared
    with CPython's sort: the first comparison asked is [l[1] < l[0]], what
    is returned is a permutation of [l], and what is raised is the error of
    a comparison.  Which further comparisons are asked differs: a list that
    this sort raises on, CPython may sort, and with another text where both
    raise.  Nothing below relies on more than what is shared. *)
Fixpoint insert_sorted (x : data) (l : list data) : outcome (list data) :=
  match l with
  | [] => Return [x]
  | y :: l' =>
      obind (py_lt x y) (fun b =>
      if b then Return (x :: y :: l')
      else obind (insert_sorted x l') (fun r => Return (y :: r)))
  end.

Definition sorted_from (acc : list data) (l : list data) : outcome (list data) :=
  fold_left (fun r x => obind r (insert_sorted x)) l (Return acc).

Definition py_sorted (l : list data) : outcome (list data) := sorted_from [] l.

(** What [for x in d], [list(d)] and [tuple(d)] go through. *)
Definition py_iter (d : data) : outcome (list data) :=
  match d with
  | DList l | DTuple l => Return l
  | DStr s => Return (map DStr (str_chars s))
  | DDict e => Return (map (fun kv => DStr (fst kv)) e)
  | _ => type_error ("'" ++ type_name d ++ "' object is not iterable")
  end.

(** [len(d)] *)
Definition py_len (d : data) : outcome nat :=
  match d with
  | DList l | DTuple l => Return (List.length l)
  | DStr s => Return (List.length (str_chars s))
  | DDict e => Return (List.length e)
  | _ => type_error ("object of type '" ++ type_name d ++ "' has no len()")
  end.

(** [d[key]] for a string key. *)
Definition py_getitem (d : data) (key : string) : outcome data :=
  match d with
  | DDict e =>
      match dict_get key e with
      | Some v => Return v
      | None => Raise (mk_exn KeyError ("'" ++ key ++ "'"))
      end
  | DList _ => type_error "list indices must be integers or slices, not str"
  | DTuple _ => type_error "tuple indices must be integers or slices, not str"
  | DStr _ => type_error "string indices must be integers, not 'str'"
  | _ => type_error ("'" ++ type_name d ++ "' object is not subscriptable")
  end.

(** [d.get(key, default)] *)
Definition py_get (d : data) (key : string) (default : data) : outcome data :=
  match d with
  | DDict e =>
      match dict_get key e with
      | Some v => Return v
      | None => Return default
      end
  | _ => Raise (mk_exn AttributeError ("'" ++ type_name d ++ "' object has no attribute 'get'"))
  end.

(** [pattern in s] (and so [pattern not in s]) for a string [s]. *)
Definition py_in_str (pattern : data) (s : string) : outcome bool :=
  match pattern with
  | DStr p => Return (str_contains p s)
  | _ => type_error ("'in <string>' requires string as left operand, not " ++ type_name pattern)
  end.

(** ** Submitted values, and the state a submitted callable works on *)

(** What a submitted callable can reach besides its arguments: mutable state
    of its own, and the console. *)
Record world : Type := mk_world { store : data; stdout : list string }.

(** What an [if] makes of [o == d] for an object [o]: the result of the
    comparison is true, or false, or it has no truth value and an error of
    the class [cls] (one that derives from [Exception]) is raised with the
    text [text].  numpy and pandas compare elementwise: the result of [==]
    on an array or a Series of several elements is an array, whose truth
    value is a [ValueError]; a numpy scalar compares as its number. *)
Inductive truth : Type :=
| Truthy
| Falsy
| NoTruth (cls text : string).

(** An object that exposes attributes: a DataFrame, a Series, an array.
    [obj_to_dict] is [Some d] for an instance of [pd.DataFrame], with [d]
    what [to_dict()] returns; [obj_tolist] is what [tolist()] returns;
    [obj_eq d] is what an [if] makes of the object [== d]. *)
Record pyobject : Type := mk_object {
  obj_class : string;
  obj_to_dict : option data;
  obj_values : option data;
  obj_dtype : option data;
  obj_shape : option data;
  obj_tolist : option data;
  obj_eq : data -> truth
}.

(** A submitted answer.  A callable takes its positional arguments and the
    world; it returns or raises, and leaves a world. *)
Inductive value : Type :=
| VData (d : data)
| VFunc (f : world -> list data -> outcome value * world)
| VObj (o : pyobject).

Definition value_type_name (v : value) : string :=
  match v with
  | VData d => type_name d
  | VFunc _ => "function"
  | VObj o => obj_class o
  end.

(** [v == d] as an [if] takes it, for [d] from the answer file.  Plain data
    compares by value and a function by identity; an object has its own
    [==]. *)
Definition value_eq (v : value) (d : data) : outcome bool :=
  match v with
  | VData a => Return (py_eq a d)
  | VFunc _ => Return false
  | VObj o =>
      match obj_eq o d with
      | Truthy => Return true
      | Falsy => Return false
      | NoTruth cls text => Raise (mk_exn (UserException cls) text)
      end
  end.

(** [isinstance(v, (int, float))] *)
Definition value_num (v : value) : option num :=
  match v with
  | VData d => as_num d
  | _ => None
  end.

(** What [getattr] finds: data, or a bound method (a [dict] has a method
    called [values]). *)
Inductive attr : Type :=
| AData (d : data)
| AMethod.

Definition getattr_values (v : value) : option attr :=
  match v with
  | VObj o => option_map AData (obj_values o)
  | VData (DDict _) => Some AMethod
  | _ => None
  end.

Definition getattr_dtype (v : value) : option data :=
  match v with VObj o => obj_dtype o | _ => None end.

Definition getattr_shape (v : value) : option data :=
  match v with VObj o => obj_shape o | _ => None end.

Definition getattr_tolist (v : value) : option data :=
  match v with VObj o => obj_tolist o | _ => None end.

Definition dataframe_to_dict (v : value) : option data :=
  match v with VObj o => obj_to_dict o | _ => None end.

(** [list(a)] *)
Definition list_of_attr (a : attr) : outcome (list data) :=
  match a with
  | AData d => py_iter d
  | AMethod => type_error "'builtin_function_or_method' object is not iterable"
  end.

(** ** Computations: state and errors *)

Definition M (A : Type) : Type := world -> outcome A * world.

Definition ret {A : Type} (a : A) : M A := fun w => (Return a, w).

Definition bind {A B : Type} (m : M A) (k : A -> M B) : M B :=
  fun w =>
    match m w with
    | (Return a, w') => k a w'
    | (Raise e, w') => (Raise e, w')
    end.

Definition lift {A : Type} (o : outcome A) : M A := fun w => (o, w).

(** [try: m  except Exception as e: h e] *)
Definition try_except {A : Type} (m : M A) (h : exn -> M A) : M A :=
  fun w =>
    match m w with
    | (Raise e, w') => if catchable e then h e w' else (Raise e, w')
    | r => r
    end.

(** [print(line)] *)
Definition print (line : string) : M unit :=
  fun w => (Return tt, mk_world (store w) (stdout w ++ [line])%list).

Notation "x <- m ;; k" := (bind m (fun x => k))
  (at level 61, m at next level, right associativity).
Notation "m ;;; k" := (bind m (fun _ => k))
  (at level 61, right associativity).

(** Calling [v] on the positional arguments [args]. *)
Definition call (v : value) (args : list data) : M value :=
  match v with
  | VFunc f => fun w => f w args
  | _ => lift (type_error ("'" ++ value_type_name v ++ "' object is not callable"))
  end.

(** ** The grader *)

(** The texts of the source. *)
Definition msg_correct : string := "정답입니다! 🎉".
Definition msg_wrong : string := "틀렸습니다. 다시 시도해보세요.".
Definition msg_need_number : string := "숫자 형태의 답안이 필요합니다.".
Definition msg_list_differs : string := "리스트 내용이 일치하지 않습니다.".
Definition msg_need_list : string := "리스트 형태의 답안이 필요합니다.".
Definition msg_dataframe_differs : string := "DataFrame이 일치하지 않습니다.".
Definition msg_need_dataframe : string := "DataFrame 형태의 답안이 필요합니다.".
Definition msg_series_differs : string := "Series의 값이 일치하지 않습니다.".
Definition msg_need_series : string := "Series 형태의 답안이 필요합니다.".
Definition msg_all_passed : string := "모든 테스트 케이스 통과! 🎉".
Definition msg_pattern_ok : string := "코드 패턴이 올바릅니다! 🎉".
Definition msg_need_code : string := "코드를 문자열로 제출해주세요.".
Definition msg_need_array : string := "numpy 배열이 필요합니다.".
Definition msg_array_differs : string := "배열의 값이 일치하지 않습니다.".
Definition msg_unsupported : string := "지원하지 않는 답안 타입입니다.".
Definition msg_error_prefix : string := "채점 중 오류가 발생했습니다: ".
Definition hidden_answer : string := "정답 비공개".

Definition msg_numeric_differs (diff : string) : string :=
  "근사값이 맞지 않습니다. (오차: " ++ diff ++ ")".
Definition msg_tests (passed total : nat) : string :=
  "테스트 케이스 " ++ str_of_nat passed ++ "/" ++ str_of_nat total ++ " 통과 - 다시 확인해보세요!".
Definition msg_missing (patterns : list string) : string :=
  "누락된 패턴: " ++ String.concat ", " patterns.
Definition msg_forbidden (patterns : list string) : string :=
  "사용하면 안 되는 패턴: " ++ String.concat ", " patterns.
Definition msg_not_found (problem_id : string) : string :=
  "문제 " ++ problem_id ++ "를 찾을 수 없습니다.".

(** What [_compare_answers] returns: [{"match": ..., "feedback": ...}]. *)
Record compared : Type := mk_compared { cmp_match : bool; cmp_feedback : string }.

(** What [check_answer] returns: the dict of an unknown problem, or the dict
    of a graded answer. *)
Inductive check_result : Type :=
| NotFound (status message : string)
| Graded (problem_id : string) (correct : bool) (feedback : string)
         (expected : data) (student_answer : value).

(** [key in result] *)
Definition has_key (r : check_result) (key : string) : bool :=
  match r with
  | NotFound _ _ => existsb (String.eqb key) ["status"; "message"]
  | Graded _ _ _ _ _ =>
      existsb (String.eqb key) ["problem_id"; "correct"; "feedback"; "expected"; "student_answer"]
  end.

(** One pass of the [function] loop: the body of the [try], and
    [except Exception: continue]. *)
Definition run_test_case (student_answer : value) (test_case : data) : M bool :=
  try_except
    (input_args <- lift (py_getitem test_case "input") ;;
     expected_output <- lift (py_getitem test_case "output") ;;
     actual_output <-
       match input_args with
       | DList args => call student_answer args
       | _ => call student_answer [input_args]
       end ;;
     lift (value_eq actual_output expected_output))
    (fun _ => ret false).

(** The loop over the test cases, with the count of passed cases. *)
Fixpoint run_test_cases (student_answer : value) (test_cases : list data) (passed : nat)
  : M nat :=
  match test_cases with
  | [] => ret passed
  | test_case :: rest =>
      ok <- run_test_case student_answer test_case ;;
      run_test_cases student_answer rest (if ok then S passed else passed)
  end.

(** The two loops of [code_pattern]: the patterns that are not in
    [student_answer], and the patterns that are. *)
Fixpoint missing_in (patterns : list data) (student_answer : string) : outcome (list string) :=
  match patterns with
  | [] => Return []
  | pattern :: rest =>
      obind (py_in_str pattern student_answer) (fun found =>
      obind (missing_in rest student_answer) (fun others =>
      Return (match pattern with
              | DStr p => if found then others else p :: others
              | _ => others
              end)))
  end.

Fixpoint found_in (patterns : list data) (student_answer : string) : outcome (list string) :=
  match patterns with
  | [] => Return []
  | pattern :: rest =>
      obind (py_in_str pattern student_answer) (fun found =>
      obind (found_in rest student_answer) (fun others =>
      Return (match pattern with
              | DStr p => if found then p :: others else others
              | _ => others
              end)))
  end.

Definition pattern_feedback (missing_patterns found_forbidden : list string) : string :=
  String.concat " | "
    ((match missing_patterns with [] => [] | _ => [msg_missing missing_patterns] end) ++
     (match found_forbidden with [] => [] | _ => [msg_forbidden found_forbidden] end))%list.

(** ** Examples to run the grader on *)

(** A rendering to put for [py_repr] in the examples: exact on [None],
    booleans, integers, and sequences of these. *)
Fixpoint repr_example (d : data) : string :=
  match d with
  | DNone => "None"
  | DBool b => if b then "True" else "False"
  | DInt z => str_of_Z z
  | DFloat f => format_float_4f f
  | DStr s => "'" ++ s ++ "'"
  | DList l => "[" ++ String.concat ", " (map repr_example l) ++ "]"
  | DTuple [x] => "(" ++ repr_example x ++ ",)"
  | DTuple l => "(" ++ String.concat ", " (map repr_example l) ++ ")"
  | DDict _ => "{...}"
  end.

(** Upper case for ASCII letters, to put for [str_upper] in the examples. *)
Fixpoint upper_ascii (s : string) : string :=
  match s with
  | EmptyString => EmptyString
  | String c s' =>
      let n := N_of_ascii c in
      String (if (97 <=? n)%N && (n <=? 122)%N then ascii_of_N (n - 32) else c)
             (upper_ascii s')
  end.

Definition w0 : world := mk_world (DInt 0) [].

(** [def add(a, b)] that raises [ValueError] on a negative argument. *)
Definition add_callable : value :=
  VFunc (fun w args =>
    match args with
    | [DInt a; DInt b] =>
        if (a <? 0) || (b <? 0)
        then (Raise (mk_exn (UserException "ValueError") "negative input"), w)
        else (Return (VData (DInt (a + b))), w)
    | _ => (Raise (mk_exn TypeError "add() takes 2 positional arguments"), w)
    end).

(** A callable that leaves through [sys.exit()]. *)
Definition exit_callable : value :=
  VFunc (fun w _ => (Raise (mk_exn SystemExit ""), w)).

(** A callable with a counter of its own: it adds on its first call, and
    returns [0] on every later one. *)
Definition once_callable : value :=
  VFunc (fun w args =>
    match store w, args with
    | DInt 0, [DInt a; DInt b] => (Return (VData (DInt (a + b))), mk_world (DInt 1) (stdout w))
    | _, _ => (Return (VData (DInt 0)), w)
    end).

Definition test_case (input output : data) : data :=
  DDict [("input", input); ("output", output)].

Definition add_tests : data :=
  DList [test_case (DList [DInt 2; DInt 3]) (DInt 5); test_case (DList [DInt 0; DInt 0]) (DInt 0)].

(** An answer file. *)
Definition example_answers : dict :=
  [ ("exact_1", DDict [("type", DStr "exact"); ("answer", DInt 42); ("display_answer", DStr "42")]);
    ("plain_1", DDict [("answer", DStr "hello")]);
    ("numeric_1", DDict [("type", DStr "numeric"); ("answer", DInt 10); ("tolerance", DFloat 0.5)]);
    ("list_1", DDict [("type", DStr "list"); ("answer", DList [DInt 1; DInt 2; DInt 3])]);
    ("list_2", DDict [("type", DStr "list"); ("answer", DList [DInt 1; DStr "a"])]);
    ("function_1", DDict [("type", DStr "function"); ("answer", DNone); ("test_cases", add_tests)]);
    ("function_2", DDict [("type", DStr "function"); ("answer", DNone)]);
    ("function_3", DDict [("type", DStr "function"); ("test_cases", DList [])]);
    ("pattern_1", DDict [("type", DStr "code_pattern");
                         ("answer", DDict [("required", DList [DStr "plot("]);
                                           ("forbidden", DList [DStr "show("])])]) ].

(** A callable that writes a line on each call, and leaves through
    [sys.exit()] when its first argument is [2]. *)
Definition exit_on_two_callable : value :=
  VFunc (fun w args =>
    let w' := mk_world (store w) (stdout w ++ ["called"])%list in
    match args with
    | [DInt a; DInt b] =>
        if a =? 2 then (Raise (mk_exn SystemExit ""), w')
        else (Return (VData (DInt (a + b))), w')
    | _ => (Raise (mk_exn TypeError "takes 2 positional arguments"), w')
    end).

(** ** The test-case harness, as the specification tells it *)

(** The arguments of a test case: a list is unpacked into positional
    arguments, any other input is the single argument. *)
Definition case_args (input : data) : list data :=
  match input with
  | DList args => args
  | _ => [input]
  end.

(** One test case: it passes when the invocation succeeds and its result is
    equal to the output ([==] answers true); an invocation that fails, or a
    case without input or output, does not pass. *)
Definition case_passes (student_answer : value) (test_case : data) (w : world)
  : bool * world :=
  match py_getitem test_case "input", py_getitem test_case "output" with
  | Return input, Return output =>
      match call student_answer (case_args input) w with
      | (Return actual, w') =>
          (match value_eq actual output with Return equal => equal | Raise _ => false end, w')
      | (Raise _, w') => (false, w')
      end
  | _, _ => (false, w)
  end.

(** The number of cases that pass, each run in the state the one before
    left. *)
Fixpoint count_passed (student_answer : value) (test_cases : list data) (w : world)
  : nat * world :=
  match test_cases with
  | [] => (0%nat, w)
  | test_case :: rest =>
      let (ok, w1) := case_passes student_answer test_case w in
      let (n, w2) := count_passed student_answer rest w1 in
      ((if ok then S n else n), w2)
  end.

(** ** The comparisons, as the specification tells them *)

(** [abs(s - x) <= tolerance] holds: the difference is computed, and the
    comparison with the tolerance answers [True]. *)
Definition within_tolerance (s x : num) (tolerance : data) : Prop :=
  exists d, num_sub s x = Return d /\ num_le_data (num_abs d) tolerance = Return true.

(** [p] occurs in [s] as a substring. *)
Definition occurs_in (p s : string) : Prop :=
  exists pre post, s = pre ++ p ++ post.

(** What [x < y] answers, [false] where it raises. *)
Definition ltb_of (x y : data) : bool :=
  match py_lt x y with
  | Return b => b
  | Raise _ => false
  end.

Definition comparable (x y : data) : bool :=
  match py_lt x y with
  | Return _ => true
  | Raise _ => false
  end.

(** On [x], [y], [z]: [<] answers, never both ways; "not greater than" is
    transitive; and [x == y] exactly when neither is smaller. *)
Definition ordered_triple (x y z : data) : bool :=
  comparable x y &&
  negb (ltb_of x y && ltb_of y x) &&
  implb (negb (ltb_of y x) && negb (ltb_of z y)) (negb (ltb_of z x)) &&
  Bool.eqb (py_eq x y) (negb (ltb_of x y) && negb (ltb_of y x)).

(** The elements of [l] are mutually orderable: [<] orders them totally,
    and its ties are the pairs that [==] equates. *)
Definition mutually_orderable (l : list data) : bool :=
  forallb (fun x => forallb (fun y => forallb (fun z => ordered_triple x y z) l) l) l.

(** The same elements with the same multiplicities, up to [==]. *)
Definition same_multiset (l1 l2 : list data) : Prop :=
  exists p1 p2, Permutation l1 p1 /\ Permutation l2 p2 /\ seq_eqb py_eq p1 p2 = true.

(** Insertion with a total comparison, and the sort it gives. *)
Fixpoint insert_by (lt : data -> data -> bool) (x : data) (l : list data) : list data :=
  match l with
  | [] => [x]
  | y :: l' => if lt x y then x :: y :: l' else y :: insert_by lt x l'
  end.

Definition sort_by (lt : data -> data -> bool) (acc l : list data) : list data :=
  fold_left (fun a x => insert_by lt x a) l acc.

Section Grader.

#[local] Set Default Proof Using "Type".

(** [repr(d)] for plain data, as CPython writes it.  It only shows in
    feedback texts. *)
Variable py_repr : data -> string.

(** [str(d)], and [f"{d}"]. *)
Definition py_str (d : data) : string :=
  match d with
  | DStr s => s
  | _ => py_repr d
  end.

Definition verdict (matched : bool) (on_match on_mismatch : string) : M compared :=
  ret (mk_compared matched (if matched then on_match else on_mismatch)).

(** The body of the [try] of [_compare_answers]. *)
Definition compare_body (student_answer : value)
    (correct_answer answer_type expected tolerance : data) : M compared :=
  if py_eq answer_type (DStr "exact") then
    matched <- lift (value_eq student_answer expected) ;;
    verdict matched msg_correct msg_wrong
  else if py_eq answer_type (DStr "numeric") then
    match value_num student_answer, as_num expected with
    | Some s, Some e =>
        d <- lift (num_sub s e) ;;
        let diff := num_abs d in
        matched <- lift (num_le_data diff tolerance) ;;
        if matched then ret (mk_compared true msg_correct)
        else
          text <- lift (format_4f diff) ;;
          ret (mk_compared false (msg_numeric_differs text))
    | _, _ => ret (mk_compared false msg_need_number)
    end
  else if py_eq answer_type (DStr "list") then
    match student_answer, expected with
    | VData (DList ls), DList le =>
        ss <- lift (py_sorted ls) ;;
        se <- lift (py_sorted le) ;;
        verdict (py_eq (DList ss) (DList se)) msg_correct msg_list_differs
    | _, _ => ret (mk_compared false msg_need_list)
    end
  else if py_eq answer_type (DStr "dataframe") then
    match dataframe_to_dict student_answer, expected with
    | Some student_dict, DDict _ =>
        verdict (py_eq student_dict expected) msg_correct msg_dataframe_differs
    | _, _ => ret (mk_compared false msg_need_dataframe)
    end
  else if py_eq answer_type (DStr "series_dtype") then
    match getattr_dtype student_answer, getattr_values student_answer with
    | Some dtype, Some values =>
        expected_values <- lift (py_getitem expected "values") ;;
        expected_dtype <- lift (py_getitem expected "dtype") ;;
        student_values <- lift (list_of_attr values) ;;
        let values_match := py_eq (DList student_values) expected_values in
        let dtype_match := py_eq (DStr (py_str dtype)) expected_dtype in
        if values_match && dtype_match then ret (mk_compared true msg_correct)
        else if negb values_match then ret (mk_compared false msg_series_differs)
        else ret (mk_compared false
               ("dtype이 일치하지 않습니다. 현재: " ++ py_str dtype ++
                ", 기대값: " ++ py_str expected_dtype))
    | _, _ => ret (mk_compared false msg_need_series)
    end
  else if py_eq answer_type (DStr "series_values") then
    match getattr_values student_answer with
    | Some values =>
        student_values <- lift (list_of_attr values) ;;
        verdict (py_eq (DList student_values) expected) msg_correct msg_series_differs
    | None => ret (mk_compared false msg_need_series)
    end
  else if py_eq answer_type (DStr "function") then
    test_cases <- lift (py_get correct_answer "test_cases" (DList [])) ;;
    total <- lift (py_len test_cases) ;;
    cases <- lift (py_iter test_cases) ;;
    passed <- run_test_cases student_answer cases 0%nat ;;
    if Nat.eqb passed total then ret (mk_compared true msg_all_passed)
    else ret (mk_compared false (msg_tests passed total))
  else if py_eq answer_type (DStr "code_pattern") then
    match student_answer with
    | VData (DStr code) =>
        required_patterns <- lift (py_get expected "required" (DList [])) ;;
        forbidden_patterns <- lift (py_get expected "forbidden" (DList [])) ;;
        required <- lift (py_iter required_patterns) ;;
        missing_patterns <- lift (missing_in required code) ;;
        forbidden <- lift (py_iter forbidden_patterns) ;;
        found_forbidden <- lift (found_in forbidden code) ;;
        match missing_patterns, found_forbidden with
        | [], [] => ret (mk_compared true msg_pattern_ok)
        | _, _ => ret (mk_compared false (pattern_feedback missing_patterns found_forbidden))
        end
    | _ => ret (mk_compared false msg_need_code)
    end
  else if py_eq answer_type (DStr "array_shape") then
    match getattr_shape student_answer with
    | Some shape =>
        items <- lift (py_iter expected) ;;
        let expected_shape := DTuple items in
        verdict (py_eq shape expected_shape) msg_correct
          ("배열 형태가 틀렸습니다. 현재: " ++ py_str shape ++
           ", 기대값: " ++ py_str expected_shape)
    | None => ret (mk_compared false msg_need_array)
    end
  else if py_eq answer_type (DStr "array_values") then
    match getattr_tolist student_answer with
    | Some student_list =>
        verdict (py_eq student_list expected) msg_correct msg_array_differs
    | None => ret (mk_compared false msg_need_array)
    end
  else ret (mk_compared false msg_unsupported).

(** [AutoGrader._compare_answers]: the three reads of the descriptor come
    before the [try]. *)
Definition _compare_answers (student_answer : value) (correct_answer : data) : M compared :=
  answer_type <- lift (py_get correct_answer "type" (DStr "exact")) ;;
  expected <- lift (py_getitem correct_answer "answer") ;;
  tolerance <- lift (py_get correct_answer "tolerance" (DInt 0)) ;;
  try_except
    (compare_body student_answer correct_answer answer_type expected tolerance)
    (fun e => ret (mk_compared false (msg_error_prefix ++ exn_str e))).

(** [AutoGrader.check_answer], on the answers [fetch_answer_file] got: a
    dict from problem ids to descriptors ([{}] when the fetch failed). *)
Definition check_answer (answers : dict) (problem_id : string) (student_answer : value)
  : M check_result :=
  match dict_get problem_id answers with
  | None => ret (NotFound "error" (msg_not_found problem_id))
  | Some correct_answer =>
      result <- _compare_answers student_answer correct_answer ;;
      expected <- lift (py_get correct_answer "display_answer" (DStr hidden_answer)) ;;
      ret (Graded problem_id (cmp_match result) (cmp_feedback result) expected student_answer)
  end.

(** [s.upper()] *)
Variable str_upper : string -> string.

Definition rule : string := String.concat "" (repeat "=" 40).

(** [submit_answer], with [fetch] for [grader.fetch_answer_file]. *)
Definition submit_answer (fetch : string -> dict) (problem_id : string) (answer : value)
    (lab_name : string) : M check_result :=
  let answer_file := lab_name ++ "/answers.json" in
  result <- check_answer (fetch answer_file) problem_id answer ;;
  print rule ;;;
  match result with
  | NotFound _ _ => lift (Raise (mk_exn KeyError "'problem_id'"))
  | Graded pid correct feedback expected _ =>
      print ("📝 " ++ str_upper lab_name ++ " - 문제 " ++ pid) ;;;
      print ("📊 결과: " ++ (if correct then "✅ 정답" else "❌ 오답")) ;;;
      print ("💬 " ++ feedback) ;;;
      (if negb correct && negb (py_eq expected (DStr hidden_answer))
       then print ("🔍 참고: " ++ py_str expected)
       else ret tt) ;;;
      print rule ;;;
      ret result
  end.

(** ** The words of the properties *)

(** A fallible value whose errors all derive from [Exception]. *)
Definition mild {A : Type} (o : outcome A) : Prop :=
  forall e, o = Raise e -> catchable e = true.

(** A computation whose errors all derive from [Exception]. *)
Definition safe {A : Type} (m : M A) : Prop :=
  forall w e w', m w = (Raise e, w') -> catchable e = true.

(** A computation that reads and writes no state. *)
Definition stateless {A : Type} (m : M A) : Prop :=
  forall w, snd (m w) = w.

(** A computation whose result does not depend on the state. *)
Definition steady {A : Type} (m : M A) : Prop :=
  forall w w', fst (m w) = fst (m w').

(** [e.get(key, default)] for the entries [e] of a dict. *)
Definition field_or (e : dict) (key : string) (default : data) : data :=
  match dict_get key e with
  | Some v => v
  | None => default
  end.

(** The answer shown on a mismatch: [display_answer], or the text that hides
    it. *)
Definition display_of (e : dict) : data := field_or e "display_answer" (DStr hidden_answer).

(** A submitted value that, called, only raises errors deriving from
    [Exception].  Every value that is not callable is one: calling it is a
    [TypeError]. *)
Definition raises_exceptions_only (v : value) : Prop :=
  forall args, safe (call v args).

(** A submitted value whose calls return the same whatever the state. *)
Definition state_independent (v : value) : Prop :=
  forall args, steady (call v args).

(** A submitted value whose calls leave the state as it was.  Every value
    that is not callable is one. *)
Definition keeps_state (v : value) : Prop :=
  forall args, stateless (call v args).

(** The lines [submit_answer] prints for a verdict. *)
Definition report (lab_name pid : string) (correct : bool) (feedback : string) (shown : data)
  : list string :=
  app [rule;
       "📝 " ++ str_upper lab_name ++ " - 문제 " ++ pid;
       "📊 결과: " ++ (if correct then "✅ 정답" else "❌ 오답");
       "💬 " ++ feedback]
    (app (if negb correct && negb (py_eq shown (DStr hidden_answer))
          then ["🔍 참고: " ++ py_str shown] else [])
         [rule]).

(** The sorted copies of two lists are equal. *)
Definition sorted_copies_equal (l1 l2 : list data) : Prop :=
  exists s1 s2, py_sorted l1 = Return s1 /\ py_sorted l2 = Return s2 /\
                py_eq (DList s1) (DList s2) = true.

(** * Properties *)

(** ** Text *)

Lemma prefix_app (p s : string) : String.prefix p (p ++ s) = true.
Proof.
  induction p as [|c p IH]; simpl.
  - now destruct s.
  - destruct (ascii_dec c c) as [_|ne]; [exact IH | now elim ne].
Qed.

Lemma prefix_split (p s : string) :
  String.prefix p s = true -> exists post, s = p ++ post.
Proof.
  revert s. induction p as [|c p IH]; intros s H.
  - now exists s.
  - destruct s as [|d s]; simpl in H; [discriminate|].
    destruct (ascii_dec c d) as [->|]; [|discriminate].
    destruct (IH _ H) as [post ->]. now exists post.
Qed.

(** [str_contains] is the substring relation. *)
Lemma str_contains_spec (pat s : string) :
  str_contains pat s = true <-> exists pre post, s = pre ++ pat ++ post.
Proof.
  split.
  - induction s as [|c s IH]; cbn [str_contains]; intros H.
    + rewrite orb_false_r in H. apply prefix_split in H as [post E].
      exists "", post. exact E.
    + apply orb_true_iff in H as [H|H].
      * apply prefix_split in H as [post E]. exists "", post. exact E.
      * destruct (IH H) as (pre & post & ->). now exists (String c pre), post.
  - intros (pre & post & ->). induction pre as [|c pre IH].
    + change ("" ++ pat ++ post) with (pat ++ post).
      destruct (pat ++ post) as [|c r] eqn:E; cbn [str_contains];
        rewrite <- E, prefix_app; reflexivity.
    + change (String c pre ++ pat ++ post) with (String c (pre ++ pat ++ post)).
      cbn [str_contains]. rewrite IH. apply orb_true_r.
Qed.

(** ** Computations *)

Lemma bind_ret {A B : Type} (a : A) (k : A -> M B) (w : world) :
  bind (ret a) k w = k a w.
Proof. reflexivity. Qed.

Lemma bind_lift_return {A B : Type} (a : A) (k : A -> M B) (w : world) :
  bind (lift (Return a)) k w = k a w.
Proof. reflexivity. Qed.

Lemma bind_lift_raise {A B : Type} (e : exn) (k : A -> M B) (w : world) :
  bind (lift (Raise e)) k w = (Raise e, w).
Proof. reflexivity. Qed.

Lemma mild_return {A : Type} (a : A) : mild (Return a).
Proof. intros e H; discriminate. Qed.

Lemma mild_type_error {A : Type} (msg : string) : mild (@type_error A msg).
Proof. intros e H; injection H as <-; reflexivity. Qed.

Lemma mild_obind {A B : Type} (o : outcome A) (k : A -> outcome B) :
  mild o -> (forall a, mild (k a)) -> mild (obind o k).
Proof.
  intros Ho Hk e. destruct o as [a|e0]; simpl.
  - apply Hk.
  - intros H; injection H as <-. now apply Ho.
Qed.

Lemma safe_ret {A : Type} (a : A) : safe (ret a).
Proof. intros w e w' H; discriminate. Qed.

Lemma safe_lift {A : Type} (o : outcome A) : mild o -> safe (lift o).
Proof. intros Ho w e w' H. injection H as H _. now apply Ho. Qed.

Lemma safe_bind {A B : Type} (m : M A) (k : A -> M B) :
  safe m -> (forall a, safe (k a)) -> safe (bind m k).
Proof.
  intros Hm Hk w e w'. unfold bind. destruct (m w) as [[a|e0] w1] eqn:E.
  - apply Hk.
  - intros H; injection H as <- _. exact (Hm _ _ _ E).
Qed.

Lemma safe_try {A : Type} (m : M A) (h : exn -> M A) :
  safe m -> (forall e, safe (h e)) -> safe (try_except m h).
Proof.
  intros Hm Hh w e w'. unfold try_except. destruct (m w) as [[a|e0] w1] eqn:E.
  - discriminate.
  - rewrite (Hm _ _ _ E). apply Hh.
Qed.

Lemma safe_print (line : string) : safe (print line).
Proof. intros w e w' H; discriminate. Qed.

(** Where the body only raises errors deriving from [Exception], the
    [try] returns: the body's value, or the handler's. *)
Lemma try_except_returns {A : Type} (m : M A) (h : exn -> A) (w : world) :
  safe m ->
  try_except m (fun e => ret (h e)) w =
    match m w with
    | (Return a, w') => (Return a, w')
    | (Raise e, w') => (Return (h e), w')
    end.
Proof.
  intros Hm. unfold try_except. destruct (m w) as [[a|e] w'] eqn:E; [reflexivity|].
  now rewrite (Hm _ _ _ E).
Qed.

(** ** The runtime raises ordinary errors only *)

(** Induction on plain data, through the sequences and the dicts. *)
Lemma data_nested_ind (P : data -> Prop) :
  P DNone -> (forall b, P (DBool b)) -> (forall z, P (DInt z)) ->
  (forall f, P (DFloat f)) -> (forall s, P (DStr s)) ->
  (forall l, Forall P l -> P (DList l)) ->
  (forall l, Forall P l -> P (DTuple l)) ->
  (forall d, Forall (fun kv => P (snd kv)) d -> P (DDict d)) ->
  forall x, P x.
Proof.
  intros HN HB HI HF HS HL HT HD.
  fix IH 1. intros [ | b | z | f | s | l | l | d].
  - exact HN.
  - apply HB.
  - apply HI.
  - apply HF.
  - apply HS.
  - apply HL. induction l as [|x l IHl]; constructor; [apply IH | exact IHl].
  - apply HT. induction l as [|x l IHl]; constructor; [apply IH | exact IHl].
  - apply HD. induction d as [|[k v] d IHd]; constructor; [apply IH | exact IHd].
Qed.

Create HintDb mild discriminated.

Ltac mild_cases :=
  let e := fresh "e" in
  let H := fresh "H" in
  intros e H;
  repeat match type of H with
         | context [match ?x with _ => _ end] => destruct x
         end;
  try discriminate H;
  injection H as <-; reflexivity.

Lemma mild_unorderable {A : Type} (op ta tb : string) : mild (@unorderable A op ta tb).
Proof. apply mild_type_error. Qed.

Lemma mild_float_of_int (z : Z) : mild (float_of_int z).
Proof. unfold float_of_int. mild_cases. Qed.

Lemma mild_to_float (n : num) : mild (to_float n).
Proof. destruct n; [apply mild_float_of_int | apply mild_return]. Qed.

Lemma mild_num_sub (a b : num) : mild (num_sub a b).
Proof.
  destruct a, b; simpl; try apply mild_return;
    repeat (apply mild_obind; [first [apply mild_float_of_int | apply mild_return] | intro]);
    apply mild_return.
Qed.

Lemma mild_format_4f (a : num) : mild (format_4f a).
Proof. apply mild_obind; [apply mild_to_float | intro; apply mild_return]. Qed.

Lemma mild_num_le_data (diff : num) (b : data) : mild (num_le_data diff b).
Proof. unfold num_le_data. destruct (as_num b); [apply mild_return | apply mild_unorderable]. Qed.

Lemma mild_seq_ltb (lt : data -> data -> outcome bool) (la : list data) :
  Forall (fun x => forall y, mild (lt x y)) la ->
  forall lb, mild (seq_ltb py_eq lt la lb).
Proof.
  induction 1 as [|x la Hx _ IH]; intros [|y lb]; simpl; try apply mild_return.
  destruct (py_eq x y); [apply IH | apply Hx].
Qed.

Lemma mild_py_lt (a b : data) : mild (py_lt a b).
Proof.
  revert b. induction a as [ | a0 | a0 | a0 | s | la IH | la IH | d _] using data_nested_ind;
    intros b; destruct b; simpl;
    try apply mild_return; try apply mild_unorderable;
    now apply mild_seq_ltb.
Qed.

Lemma mild_insert_sorted (x : data) (l : list data) : mild (insert_sorted x l).
Proof.
  induction l as [|y l IH]; simpl; [apply mild_return|].
  apply mild_obind; [apply mild_py_lt|]. intros [|]; [apply mild_return|].
  apply mild_obind; [exact IH | intro; apply mild_return].
Qed.

Lemma mild_sorted_from (l acc : list data) : mild (sorted_from acc l).
Proof.
  unfold sorted_from.
  enough (H : forall r, mild r -> mild (fold_left (fun r x => obind r (insert_sorted x)) l r))
    by (apply H, mild_return).
  induction l as [|x l IH]; intros r Hr; simpl; [exact Hr|].
  apply IH, mild_obind; [exact Hr | intro; apply mild_insert_sorted].
Qed.

Lemma mild_py_sorted (l : list data) : mild (py_sorted l).
Proof. apply mild_sorted_from. Qed.

Lemma mild_py_iter (d : data) : mild (py_iter d).
Proof. destruct d; simpl; try apply mild_return; apply mild_type_error. Qed.

Lemma mild_py_len (d : data) : mild (py_len d).
Proof. destruct d; simpl; try apply mild_return; apply mild_type_error. Qed.

Lemma mild_py_getitem (d : data) (key : string) : mild (py_getitem d key).
Proof. unfold py_getitem. mild_cases. Qed.

Lemma mild_py_get (d : data) (key : string) (default : data) : mild (py_get d key default).
Proof. unfold py_get. mild_cases. Qed.

Lemma mild_py_in_str (pattern : data) (s : string) : mild (py_in_str pattern s).
Proof. destruct pattern; simpl; try apply mild_return; apply mild_type_error. Qed.

Lemma mild_missing_in (patterns : list data) (s : string) : mild (missing_in patterns s).
Proof.
  induction patterns as [|p l IH]; simpl; [apply mild_return|].
  apply mild_obind; [apply mild_py_in_str | intro].
  apply mild_obind; [exact IH | intro; apply mild_return].
Qed.

Lemma mild_found_in (patterns : list data) (s : string) : mild (found_in patterns s).
Proof.
  induction patterns as [|p l IH]; simpl; [apply mild_return|].
  apply mild_obind; [apply mild_py_in_str | intro].
  apply mild_obind; [exact IH | intro; apply mild_return].
Qed.

Lemma mild_list_of_attr (a : attr) : mild (list_of_attr a).
Proof. destruct a; simpl; [apply mild_py_iter | apply mild_type_error]. Qed.

(** Whatever an [==] raises derives from [Exception]. *)
Lemma mild_value_eq (v : value) (d : data) : mild (value_eq v d).
Proof.
  destruct v as [a|f|o]; simpl; try apply mild_return.
  destruct (obj_eq o d); try apply mild_return. intros e H. injection H as <-. reflexivity.
Qed.

#[local] Hint Resolve mild_return mild_type_error mild_unorderable mild_num_sub mild_format_4f
  mild_num_le_data mild_py_sorted mild_py_iter mild_py_len mild_py_getitem mild_py_get
  mild_missing_in mild_found_in mild_list_of_attr mild_value_eq : mild.

Lemma data_raises_exceptions_only (d : data) : raises_exceptions_only (VData d).
Proof. intros args. apply safe_lift, mild_type_error. Qed.

Lemma object_raises_exceptions_only (o : pyobject) : raises_exceptions_only (VObj o).
Proof. intros args. apply safe_lift, mild_type_error. Qed.

Lemma add_raises_exceptions_only : raises_exceptions_only add_callable.
Proof.
  intros args w e w' H. simpl in H.
  repeat match type of H with
         | context [match ?x with _ => _ end] => destruct x
         | context [if ?x then _ else _] => destruct x
         end; try discriminate H; injection H as <- _; reflexivity.
Qed.

(** *** Reading the descriptor *)

Lemma py_get_dict (e : dict) (key : string) (default : data) :
  py_get (DDict e) key default = Return (field_or e key default).
Proof. unfold py_get, field_or. now destruct (dict_get key e). Qed.

(** With an [answer] entry, [_compare_answers] is the [try] around the
    body. *)
Lemma compare_answers_dict (student_answer : value) (e : dict) (expected : data) :
  dict_get "answer" e = Some expected ->
  _compare_answers student_answer (DDict e) =
    try_except
      (compare_body student_answer (DDict e) (field_or e "type" (DStr "exact")) expected
         (field_or e "tolerance" (DInt 0)))
      (fun err => ret (mk_compared false (msg_error_prefix ++ exn_str err))).
Proof.
  intros Ha. unfold _compare_answers.
  rewrite !py_get_dict. unfold py_getitem. rewrite Ha. reflexivity.
Qed.

(** Without one, it raises [KeyError] before the [try]. *)
Lemma compare_answers_no_answer (student_answer : value) (e : dict) (w : world) :
  dict_get "answer" e = None ->
  _compare_answers student_answer (DDict e) w = (Raise (mk_exn KeyError "'answer'"), w).
Proof.
  intros Ha. unfold _compare_answers.
  rewrite !py_get_dict. unfold py_getitem. rewrite Ha. reflexivity.
Qed.

(** [check_answer] on a known problem, from what [_compare_answers] does. *)
Lemma check_answer_known (answers : dict) (problem_id : string) (student_answer : value)
    (e : dict) (w : world) :
  dict_get problem_id answers = Some (DDict e) ->
  check_answer answers problem_id student_answer w =
    match _compare_answers student_answer (DDict e) w with
    | (Return c, w') =>
        (Return (Graded problem_id (cmp_match c) (cmp_feedback c) (display_of e) student_answer),
         w')
    | (Raise err, w') => (Raise err, w')
    end.
Proof.
  intros Hd. unfold check_answer. rewrite Hd. unfold bind.
  destruct (_compare_answers _ _ w) as [[c|err] w']; [|reflexivity].
  now rewrite py_get_dict.
Qed.

(** A descriptor without an [answer] entry, whatever its kind: the
    [KeyError] leaves [check_answer]. *)
Lemma check_answer_answer_absent (answers : dict) (problem_id : string)
    (student_answer : value) (e : dict) (w : world) :
  dict_get problem_id answers = Some (DDict e) ->
  dict_get "answer" e = None ->
  check_answer answers problem_id student_answer w = (Raise (mk_exn KeyError "'answer'"), w).
Proof.
  intros Hd Ha. now rewrite (check_answer_known _ _ _ _ _ Hd), (compare_answers_no_answer _ _ _ Ha).
Qed.

(** *** Only ordinary errors leave the body of the comparison *)

Lemma safe_run_test_case (student_answer : value) (test_case : data) :
  raises_exceptions_only student_answer -> safe (run_test_case student_answer test_case).
Proof.
  intros Hs. unfold run_test_case. apply safe_try; [|intro; apply safe_ret].
  apply safe_bind; [apply safe_lift; auto with mild | intro input_args].
  apply safe_bind; [apply safe_lift; auto with mild | intro output].
  apply safe_bind; [destruct input_args; apply Hs | intro; apply safe_lift, mild_value_eq].
Qed.

Lemma safe_run_test_cases (student_answer : value) (cases : list data) (passed : nat) :
  raises_exceptions_only student_answer ->
  safe (run_test_cases student_answer cases passed).
Proof.
  intros Hs. revert passed. induction cases as [|c cases IH]; intros passed; simpl.
  - apply safe_ret.
  - apply safe_bind; [now apply safe_run_test_case | intro; apply IH].
Qed.

Ltac safe_step :=
  match goal with
  | |- safe (ret _) => apply safe_ret
  | |- safe (verdict _ _ _) => apply safe_ret
  | |- safe (lift _) => apply safe_lift; auto with mild
  | |- safe (run_test_cases _ _ _) => apply safe_run_test_cases; assumption
  | |- safe (bind _ _) => apply safe_bind; [|intro]
  | |- safe (if ?b then _ else _) => destruct b
  | |- safe (match ?x with _ => _ end) => destruct x
  end.

Lemma safe_compare_body (student_answer : value)
    (correct_answer answer_type expected tolerance : data) :
  raises_exceptions_only student_answer ->
  safe (compare_body student_answer correct_answer answer_type expected tolerance).
Proof.
  intros Hs. unfold compare_body. repeat safe_step.
Qed.

(** What [check_answer] returns on a descriptor with an [answer] entry and a
    submitted value that raises ordinary errors only: the verdict of the
    body, or the verdict made of the body's error. *)
Lemma check_answer_graded (answers : dict) (problem_id : string) (student_answer : value)
    (e : dict) (expected : data) (w : world) :
  dict_get problem_id answers = Some (DDict e) ->
  dict_get "answer" e = Some expected ->
  raises_exceptions_only student_answer ->
  check_answer answers problem_id student_answer w =
    match compare_body student_answer (DDict e) (field_or e "type" (DStr "exact")) expected
            (field_or e "tolerance" (DInt 0)) w with
    | (Return c, w') =>
        (Return (Graded problem_id (cmp_match c) (cmp_feedback c) (display_of e) student_answer),
         w')
    | (Raise err, w') =>
        (Return (Graded problem_id false (msg_error_prefix ++ exn_str err) (display_of e)
                   student_answer), w')
    end.
Proof.
  intros Hd Ha Hs.
  rewrite (check_answer_known _ _ _ _ _ Hd), (compare_answers_dict _ _ _ Ha).
  rewrite try_except_returns by now apply safe_compare_body.
  now destruct (compare_body _ _ _ _ _ w) as [[c|err] w'].
Qed.

(** [check_answer] on a descriptor with a [type] and an [answer]. *)
Lemma check_answer_typed (answers : dict) (problem_id : string) (student_answer : value)
    (e : dict) (answer_type expected : data) (w : world) :
  dict_get problem_id answers = Some (DDict e) ->
  dict_get "type" e = Some answer_type ->
  dict_get "answer" e = Some expected ->
  check_answer answers problem_id student_answer w =
    match try_except
            (compare_body student_answer (DDict e) answer_type expected
               (field_or e "tolerance" (DInt 0)))
            (fun err => ret (mk_compared false (msg_error_prefix ++ exn_str err))) w with
    | (Return c, w') =>
        (Return (Graded problem_id (cmp_match c) (cmp_feedback c) (display_of e) student_answer),
         w')
    | (Raise err, w') => (Raise err, w')
    end.
Proof.
  intros Hd Ht Ha.
  rewrite (check_answer_known _ _ _ _ _ Hd), (compare_answers_dict _ _ _ Ha).
  unfold field_or at 1. now rewrite Ht.
Qed.

(** ** The claims *)

(** C1 (as the code has it): for every descriptor that is a dict with an
    [answer] entry, and every submitted value whose calls raise nothing but
    errors deriving from [Exception], [check_answer] returns a verdict and
    raises nothing.  A failure raised in the body of the comparison (a
    [TypeError] from sorting unorderable elements among them) becomes the
    verdict with [correct = false] and the text of the error as feedback;
    otherwise the verdict is the one the body computed. *)
Theorem check_answer_contains_errors (answers : dict) (problem_id : string)
    (student_answer : value) (e : dict) (expected : data) (w : world) :
  dict_get problem_id answers = Some (DDict e) ->
  dict_get "answer" e = Some expected ->
  raises_exceptions_only student_answer ->
  exists correct feedback w',
    check_answer answers problem_id student_answer w =
      (Return (Graded problem_id correct feedback (display_of e) student_answer), w') /\
    forall err w1,
      compare_body student_answer (DDict e) (field_or e "type" (DStr "exact")) expected
        (field_or e "tolerance" (DInt 0)) w = (Raise err, w1) ->
      correct = false /\ feedback = msg_error_prefix ++ exn_str err /\ w' = w1.
Proof.
  intros Hd Ha Hs. rewrite (check_answer_graded _ _ _ _ _ _ Hd Ha Hs).
  destruct (compare_body _ _ _ _ _ w) as [[c|err] w'].
  - exists (cmp_match c), (cmp_feedback c), w'. split; [reflexivity | discriminate].
  - exists false, (msg_error_prefix ++ exn_str err), w'. split; [reflexivity|].
    intros err' w1 H. injection H as <- <-. auto.
Qed.

(** C2: for a problem id that is not in the answers, [check_answer] raises
    nothing and returns the dict with status ["error"] and a message that
    holds the id; that dict has no [correct] entry. *)
Theorem check_answer_unknown_problem (answers : dict) (problem_id : string)
    (student_answer : value) (w : world) :
  dict_get problem_id answers = None ->
  exists message,
    check_answer answers problem_id student_answer w = (Return (NotFound "error" message), w) /\
    str_contains problem_id message = true /\
    has_key (NotFound "error" message) "correct" = false.
Proof.
  intros Hd. exists (msg_not_found problem_id). unfold check_answer. rewrite Hd.
  repeat split. apply str_contains_spec. now exists "문제 ", "를 찾을 수 없습니다.".
Qed.

(** The branch of a given kind. *)
Lemma compare_body_exact (student_answer : value) (correct_answer expected tolerance : data) :
  compare_body student_answer correct_answer (DStr "exact") expected tolerance =
    (matched <- lift (value_eq student_answer expected) ;;
     verdict matched msg_correct msg_wrong).
Proof. reflexivity. Qed.

Lemma compare_body_function (student_answer : value) (correct_answer expected tolerance : data) :
  compare_body student_answer correct_answer (DStr "function") expected tolerance =
    (test_cases <- lift (py_get correct_answer "test_cases" (DList [])) ;;
     total <- lift (py_len test_cases) ;;
     cases <- lift (py_iter test_cases) ;;
     passed <- run_test_cases student_answer cases 0%nat ;;
     if Nat.eqb passed total then ret (mk_compared true msg_all_passed)
     else ret (mk_compared false (msg_tests passed total))).
Proof. reflexivity. Qed.

(** C10: a descriptor without a [type] entry is graded by the exact
    comparison, not as an unsupported type: the answer is correct exactly
    when it equals the descriptor's [answer], that is when [==] answers
    true.  For plain data that is equality of values.  Where the [==] of a
    submitted object has no truth value (an array or a Series of several
    elements), the error is caught: the answer is graded wrong, with the
    text of the error. *)
Theorem check_answer_type_absent (answers : dict) (problem_id : string)
    (student_answer : value) (e : dict) (expected : data) (w : world) :
  dict_get problem_id answers = Some (DDict e) ->
  dict_get "type" e = None ->
  dict_get "answer" e = Some expected ->
  exists correct feedback,
    check_answer answers problem_id student_answer w =
      (Return (Graded problem_id correct feedback (display_of e) student_answer), w) /\
    correct = match value_eq student_answer expected with
              | Return equal => equal
              | Raise _ => false
              end /\
    feedback = match value_eq student_answer expected with
               | Return equal => if equal then msg_correct else msg_wrong
               | Raise err => msg_error_prefix ++ exn_str err
               end /\
    (forall d, student_answer = VData d -> correct = py_eq d expected) /\
    feedback <> msg_unsupported.
Proof.
  intros Hd Ht Ha.
  rewrite (check_answer_known _ _ _ _ _ Hd), (compare_answers_dict _ _ _ Ha).
  unfold field_or at 1. rewrite Ht, compare_body_exact.
  unfold try_except, bind, lift, verdict, ret.
  pose proof (mild_value_eq student_answer expected) as Hm.
  destruct (value_eq student_answer expected) as [equal|err] eqn:E.
  - exists equal. eexists. repeat split.
    + intros d ->. simpl in E. now injection E as <-.
    + destruct equal; discriminate.
  - rewrite (Hm err eq_refl). exists false. eexists. repeat split.
    + intros d ->. discriminate E.
    + discriminate.
Qed.

(** C9 (as the code has it): for a [function] descriptor that has an
    [answer] entry and whose [test_cases] are absent or the empty list,
    every submitted value, callable or not, is graded correct with the
    feedback of a full pass. *)
Theorem check_answer_no_test_cases (answers : dict) (problem_id : string)
    (student_answer : value) (e : dict) (expected : data) (w : world) :
  dict_get problem_id answers = Some (DDict e) ->
  dict_get "type" e = Some (DStr "function") ->
  dict_get "answer" e = Some expected ->
  dict_get "test_cases" e = None \/ dict_get "test_cases" e = Some (DList []) ->
  check_answer answers problem_id student_answer w =
    (Return (Graded problem_id true msg_all_passed (display_of e) student_answer), w).
Proof.
  intros Hd Ht Ha Hc.
  rewrite (check_answer_typed _ _ _ _ _ _ _ Hd Ht Ha), compare_body_function.
  unfold try_except, bind. rewrite py_get_dict. unfold field_or.
  destruct Hc as [-> | ->]; reflexivity.
Qed.

(** The loop of the source is the harness of the specification, for a
    submitted value that raises ordinary errors only. *)
Lemma run_test_case_spec (student_answer : value) (test_case : data) (w : world) :
  raises_exceptions_only student_answer ->
  run_test_case student_answer test_case w =
    (Return (fst (case_passes student_answer test_case w)),
     snd (case_passes student_answer test_case w)).
Proof.
  intros Hs. unfold run_test_case, case_passes, try_except, bind, lift.
  destruct (py_getitem test_case "input") as [input|err] eqn:Ei.
  - destruct (py_getitem test_case "output") as [output|err] eqn:Eo.
    + replace (match input with
               | DList args => call student_answer args
               | _ => call student_answer [input]
               end) with (call student_answer (case_args input)) by now destruct input.
      destruct (call student_answer (case_args input) w) as [[actual|err] w'] eqn:Ec.
      * destruct (value_eq actual output) as [equal|err] eqn:Ev; [reflexivity|].
        now rewrite (mild_value_eq _ _ _ Ev).
      * now rewrite (Hs _ _ _ _ Ec).
    + now rewrite (mild_py_getitem _ _ _ Eo).
  - now rewrite (mild_py_getitem _ _ _ Ei).
Qed.

Lemma run_test_cases_spec (student_answer : value) (test_cases : list data) :
  raises_exceptions_only student_answer ->
  forall (passed : nat) (w : world),
    run_test_cases student_answer test_cases passed w =
      (Return (passed + fst (count_passed student_answer test_cases w))%nat,
       snd (count_passed student_answer test_cases w)).
Proof.
  intros Hs. induction test_cases as [|tc rest IH]; intros passed w; simpl.
  - unfold ret. now rewrite Nat.add_0_r.
  - unfold bind. rewrite (run_test_case_spec _ _ _ Hs).
    destruct (case_passes student_answer tc w) as [ok w1]. simpl.
    rewrite IH. destruct (count_passed student_answer rest w1) as [n w2]. simpl.
    destruct ok; [now rewrite Nat.add_succ_r | reflexivity].
Qed.


Lemma compare_body_numeric (student_answer : value) (correct_answer expected tolerance : data) :
  compare_body student_answer correct_answer (DStr "numeric") expected tolerance =
    match value_num student_answer, as_num expected with
    | Some s, Some e =>
        d <- lift (num_sub s e) ;;
        matched <- lift (num_le_data (num_abs d) tolerance) ;;
        if matched then ret (mk_compared true msg_correct)
        else
          text <- lift (format_4f (num_abs d)) ;;
          ret (mk_compared false (msg_numeric_differs text))
    | _, _ => ret (mk_compared false msg_need_number)
    end.
Proof. reflexivity. Qed.

(** On two integers and an integer tolerance, [within_tolerance] is the
    comparison of [Z]. *)
Lemma within_tolerance_int (a b t : Z) :
  within_tolerance (NInt a) (NInt b) (DInt t) <-> Z.abs (a - b) <= t.
Proof.
  unfold within_tolerance. split.
  - intros (d & Hd & H). injection Hd as <-.
    unfold num_le_data in H. cbn [as_num num_abs num_leb] in H.
    injection H as H. now apply Z.leb_le.
  - intros H. exists (NInt (a - b)). split; [reflexivity|].
    unfold num_le_data. cbn [as_num num_abs num_leb]. f_equal. now apply Z.leb_le.
Qed.

(** On two floats and a float tolerance, it is the comparison of binary64. *)
Lemma within_tolerance_float (a b t : float) :
  within_tolerance (NFloat a) (NFloat b) (DFloat t) <->
  PrimFloat.leb (PrimFloat.abs (PrimFloat.sub a b)) t = true.
Proof.
  unfold within_tolerance. split.
  - intros (d & Hd & H). injection Hd as <-. now injection H.
  - intros H. exists (NFloat (PrimFloat.sub a b)). split; [reflexivity|].
    unfold num_le_data. cbn [as_num num_abs num_leb]. now rewrite H.
Qed.


Lemma compare_body_code_pattern (student_answer : value)
    (correct_answer expected tolerance : data) :
  compare_body student_answer correct_answer (DStr "code_pattern") expected tolerance =
    match student_answer with
    | VData (DStr code) =>
        required_patterns <- lift (py_get expected "required" (DList [])) ;;
        forbidden_patterns <- lift (py_get expected "forbidden" (DList [])) ;;
        required <- lift (py_iter required_patterns) ;;
        missing_patterns <- lift (missing_in required code) ;;
        forbidden <- lift (py_iter forbidden_patterns) ;;
        found_forbidden <- lift (found_in forbidden code) ;;
        match missing_patterns, found_forbidden with
        | [], [] => ret (mk_compared true msg_pattern_ok)
        | _, _ => ret (mk_compared false (pattern_feedback missing_patterns found_forbidden))
        end
    | _ => ret (mk_compared false msg_need_code)
    end.
Proof. reflexivity. Qed.

(** On patterns that are strings, the two loops are two filters. *)
Lemma missing_in_strings (patterns : list string) (code : string) :
  missing_in (map DStr patterns) code =
    Return (filter (fun p => negb (str_contains p code)) patterns).
Proof.
  induction patterns as [|p l IH]; [reflexivity|].
  cbn [map missing_in py_in_str obind filter]. rewrite IH. cbn [obind].
  now destruct (str_contains p code).
Qed.

Lemma found_in_strings (patterns : list string) (code : string) :
  found_in (map DStr patterns) code = Return (filter (fun p => str_contains p code) patterns).
Proof.
  induction patterns as [|p l IH]; [reflexivity|].
  cbn [map found_in py_in_str obind filter]. rewrite IH. cbn [obind].
  now destruct (str_contains p code).
Qed.

Lemma filter_nil_iff {A : Type} (f : A -> bool) (l : list A) :
  filter f l = [] <-> forall x, In x l -> f x = false.
Proof.
  induction l as [|a l IH]; simpl.
  - split; [intros _ x [] | reflexivity].
  - destruct (f a) eqn:E; split.
    + discriminate.
    + intros H. specialize (H a (or_introl eq_refl)). congruence.
    + intros H x [<-|Hx]; [exact E | now apply IH].
    + intros H. apply IH. intros x Hx. apply H. now right.
Qed.

(** The missing patterns are the required ones that do not occur in the
    code, the found ones are the forbidden ones that do. *)
Lemma missing_patterns_spec (required : list string) (code p : string) :
  In p (filter (fun p => negb (str_contains p code)) required) <->
  In p required /\ ~ occurs_in p code.
Proof.
  rewrite filter_In, negb_true_iff. unfold occurs_in. rewrite <- str_contains_spec.
  now destruct (str_contains p code).
Qed.

Lemma found_patterns_spec (forbidden : list string) (code p : string) :
  In p (filter (fun p => str_contains p code) forbidden) <->
  In p forbidden /\ occurs_in p code.
Proof. rewrite filter_In. unfold occurs_in. now rewrite <- str_contains_spec. Qed.


(** A verdict comes from a descriptor that is in the answers, and carries
    what that descriptor shows. *)
Lemma check_answer_graded_inv (answers : dict) (problem_id : string) (student_answer : value)
    (w w1 : world) (pid : string) (correct : bool) (feedback : string) (shown : data)
    (echo : value) :
  check_answer answers problem_id student_answer w =
    (Return (Graded pid correct feedback shown echo), w1) ->
  exists e, dict_get problem_id answers = Some (DDict e) /\ shown = display_of e /\
            pid = problem_id /\ echo = student_answer.
Proof.
  unfold check_answer. destruct (dict_get problem_id answers) as [ca|] eqn:Hd; [|discriminate].
  destruct ca as [ | | | | | | | e]; try discriminate.
  intros H. exists e. split; [reflexivity|].
  unfold bind in H. destruct (_compare_answers _ _ w) as [[c|err] w']; [|discriminate].
  rewrite py_get_dict in H. cbn [lift] in H. injection H as <- _ _ <- <- _. auto.
Qed.

(** C7 (as the code has it): the verdict [check_answer] returns always
    carries the [display_answer] of the descriptor (or the text that hides
    it, when there is none) in its [expected] entry, whether the answer is
    correct or not.  What depends on the verdict is the report of
    [submit_answer]: it prints the line with the expected answer exactly
    when the answer is not correct and the entry is not the hiding text;
    the dict it returns is the verdict itself. *)
Theorem display_answer_exposure (fetch : string -> dict) (lab_name problem_id : string)
    (answer : value) (w w1 : world) (pid : string) (correct : bool) (feedback : string)
    (shown : data) (echo : value) :
  check_answer (fetch (lab_name ++ "/answers.json")) problem_id answer w =
    (Return (Graded pid correct feedback shown echo), w1) ->
  (exists e, dict_get problem_id (fetch (lab_name ++ "/answers.json")) = Some (DDict e) /\
             shown = display_of e) /\
  submit_answer fetch problem_id answer lab_name w =
    (Return (Graded pid correct feedback shown echo),
     mk_world (store w1) (app (stdout w1) (report lab_name pid correct feedback shown))).
Proof.
  intros H. split.
  - destruct (check_answer_graded_inv _ _ _ _ _ _ _ _ _ _ H) as (e & He & Hs & _). eauto.
  - unfold submit_answer, bind at 1. rewrite H. unfold report.
    destruct (negb correct && negb (py_eq shown (DStr hidden_answer)));
      unfold bind, print, ret; cbn [store stdout];
      repeat rewrite <- app_assoc; reflexivity.
Qed.

(** ** State *)

Lemma steady_ret {A : Type} (a : A) : steady (ret a).
Proof. intros w w'; reflexivity. Qed.

Lemma steady_lift {A : Type} (o : outcome A) : steady (lift o).
Proof. intros w w'; reflexivity. Qed.

Lemma steady_bind {A B : Type} (m : M A) (k : A -> M B) :
  steady m -> (forall a, steady (k a)) -> steady (bind m k).
Proof.
  intros Hm Hk w w'. unfold bind. specialize (Hm w w').
  destruct (m w) as [o w1], (m w') as [o' w1']. simpl in Hm. subst o'.
  destruct o; [apply Hk | reflexivity].
Qed.

Lemma steady_try {A : Type} (m : M A) (h : exn -> M A) :
  steady m -> (forall e, steady (h e)) -> steady (try_except m h).
Proof.
  intros Hm Hh w w'. unfold try_except. specialize (Hm w w').
  destruct (m w) as [o w1], (m w') as [o' w1']. simpl in Hm. subst o'.
  destruct o as [a|e]; [reflexivity|]. destruct (catchable e); [apply Hh | reflexivity].
Qed.

Lemma stateless_ret {A : Type} (a : A) : stateless (ret a).
Proof. intros w; reflexivity. Qed.

Lemma stateless_lift {A : Type} (o : outcome A) : stateless (lift o).
Proof. intros w; reflexivity. Qed.

Lemma stateless_bind {A B : Type} (m : M A) (k : A -> M B) :
  stateless m -> (forall a, stateless (k a)) -> stateless (bind m k).
Proof.
  intros Hm Hk w. unfold bind. specialize (Hm w).
  destruct (m w) as [o w1]. simpl in Hm. subst w1.
  destruct o; [apply Hk | reflexivity].
Qed.

Lemma stateless_try {A : Type} (m : M A) (h : exn -> M A) :
  stateless m -> (forall e, stateless (h e)) -> stateless (try_except m h).
Proof.
  intros Hm Hh w. unfold try_except. specialize (Hm w).
  destruct (m w) as [o w1]. simpl in Hm. subst w1.
  destruct o as [a|e]; [reflexivity|]. destruct (catchable e); [apply Hh | reflexivity].
Qed.

Lemma not_callable_state_independent (v : value) :
  (forall f, v <> VFunc f) -> state_independent v /\ keeps_state v.
Proof.
  intros H. destruct v as [d|f|o]; [| now elim (H f) |];
    split; intros args; first [apply steady_lift | apply stateless_lift].
Qed.

Lemma steady_run_test_case (student_answer : value) (test_case : data) :
  state_independent student_answer -> steady (run_test_case student_answer test_case).
Proof.
  intros Hs. unfold run_test_case. apply steady_try; [|intro; apply steady_ret].
  apply steady_bind; [apply steady_lift | intro input_args].
  apply steady_bind; [apply steady_lift | intro output].
  apply steady_bind; [destruct input_args; apply Hs | intro; apply steady_lift].
Qed.

Lemma steady_run_test_cases (student_answer : value) (cases : list data) (passed : nat) :
  state_independent student_answer -> steady (run_test_cases student_answer cases passed).
Proof.
  intros Hs. revert passed. induction cases as [|c cases IH]; intros passed; simpl.
  - apply steady_ret.
  - apply steady_bind; [now apply steady_run_test_case | intro; apply IH].
Qed.

Lemma stateless_run_test_case (student_answer : value) (test_case : data) :
  keeps_state student_answer -> stateless (run_test_case student_answer test_case).
Proof.
  intros Hs. unfold run_test_case. apply stateless_try; [|intro; apply stateless_ret].
  apply stateless_bind; [apply stateless_lift | intro input_args].
  apply stateless_bind; [apply stateless_lift | intro output].
  apply stateless_bind; [destruct input_args; apply Hs | intro; apply stateless_lift].
Qed.

Lemma stateless_run_test_cases (student_answer : value) (cases : list data) (passed : nat) :
  keeps_state student_answer -> stateless (run_test_cases student_answer cases passed).
Proof.
  intros Hs. revert passed. induction cases as [|c cases IH]; intros passed; simpl.
  - apply stateless_ret.
  - apply stateless_bind; [now apply stateless_run_test_case | intro; apply IH].
Qed.

Ltac steady_step :=
  match goal with
  | |- steady (ret _) => apply steady_ret
  | |- steady (verdict _ _ _) => apply steady_ret
  | |- steady (lift _) => apply steady_lift
  | |- steady (run_test_cases _ _ _) => apply steady_run_test_cases; assumption
  | |- steady (bind _ _) => apply steady_bind; [|intro]
  | |- steady (try_except _ _) => apply steady_try; [|intro]
  | |- steady (if ?b then _ else _) => destruct b
  | |- steady (match ?x with _ => _ end) => destruct x
  end.

Ltac stateless_step :=
  match goal with
  | |- stateless (ret _) => apply stateless_ret
  | |- stateless (verdict _ _ _) => apply stateless_ret
  | |- stateless (lift _) => apply stateless_lift
  | |- stateless (run_test_cases _ _ _) => apply stateless_run_test_cases; assumption
  | |- stateless (bind _ _) => apply stateless_bind; [|intro]
  | |- stateless (try_except _ _) => apply stateless_try; [|intro]
  | |- stateless (if ?b then _ else _) => destruct b
  | |- stateless (match ?x with _ => _ end) => destruct x
  end.

Lemma steady_check_answer (answers : dict) (problem_id : string) (student_answer : value) :
  state_independent student_answer ->
  steady (check_answer answers problem_id student_answer).
Proof.
  intros Hs. unfold check_answer, _compare_answers, compare_body. repeat steady_step.
Qed.

Lemma stateless_check_answer (answers : dict) (problem_id : string) (student_answer : value) :
  keeps_state student_answer ->
  stateless (check_answer answers problem_id student_answer).
Proof.
  intros Hs. unfold check_answer, _compare_answers, compare_body. repeat stateless_step.
Qed.

(** Where the descriptor is not of kind [function], nothing is called. *)
Lemma stateless_compare_body_kind (student_answer : value)
    (correct_answer answer_type expected tolerance : data) :
  py_eq answer_type (DStr "function") = false ->
  stateless (compare_body student_answer correct_answer answer_type expected tolerance).
Proof.
  intros Ht. unfold compare_body. rewrite Ht. repeat stateless_step.
Qed.

(** For a descriptor that is not of kind [function], [check_answer] calls
    nothing and prints nothing: it leaves the state and the output as they
    were, whatever the submitted value, a callable with effects included. *)
Lemma stateless_check_answer_kind (answers : dict) (problem_id : string)
    (student_answer : value) (e : dict) :
  dict_get problem_id answers = Some (DDict e) ->
  py_eq (field_or e "type" (DStr "exact")) (DStr "function") = false ->
  stateless (check_answer answers problem_id student_answer).
Proof.
  intros Hd Ht w. rewrite (check_answer_known _ _ _ _ _ Hd).
  destruct (dict_get "answer" e) as [x|] eqn:Ha.
  - rewrite (compare_answers_dict _ _ _ Ha).
    assert (H : stateless (try_except
                  (compare_body student_answer (DDict e) (field_or e "type" (DStr "exact")) x
                     (field_or e "tolerance" (DInt 0)))
                  (fun err => ret (mk_compared false (msg_error_prefix ++ exn_str err))))).
    { apply stateless_try; [now apply stateless_compare_body_kind | intro; apply stateless_ret]. }
    specialize (H w). destruct (try_except _ _ w) as [[c|err] w']; exact H.
  - now rewrite (compare_answers_no_answer _ _ _ Ha).
Qed.

(** C8 (as the code has it): the grader keeps no state of its own.  For a
    submitted value whose calls return the same whatever the state (every
    value that is not callable is one), [check_answer] gives the same result
    in every state, so two calls with the same arguments give the same
    result, the second one starting where the first one ended.  The state
    is only changed by calls of the submitted value: it is left as it was
    when these leave it so. *)
Theorem check_answer_repeatable (answers : dict) (problem_id : string)
    (student_answer : value) :
  state_independent student_answer ->
  (forall w w',
     fst (check_answer answers problem_id student_answer w) =
     fst (check_answer answers problem_id student_answer w')) /\
  (forall w,
     fst (check_answer answers problem_id student_answer
            (snd (check_answer answers problem_id student_answer w))) =
     fst (check_answer answers problem_id student_answer w)) /\
  (keeps_state student_answer ->
     forall w, snd (check_answer answers problem_id student_answer w) = w).
Proof.
  intros Hs. split; [|split].
  - exact (steady_check_answer answers problem_id student_answer Hs).
  - intros w. apply (steady_check_answer answers problem_id student_answer Hs).
  - intros Hk. exact (stateless_check_answer answers problem_id student_answer Hk).
Qed.

(** ** Sorting *)

(** Whatever [<] answers, [sorted] returns a permutation of its argument. *)
Lemma insert_sorted_perm (x : data) (l r : list data) :
  insert_sorted x l = Return r -> Permutation (x :: l) r.
Proof.
  revert r. induction l as [|y l IH]; intros r; simpl.
  - intros H; injection H as <-. apply Permutation_refl.
  - destruct (py_lt x y) as [[|]|err]; simpl; try discriminate.
    + intros H; injection H as <-. apply Permutation_refl.
    + destruct (insert_sorted x l) as [r'|err]; simpl; [|discriminate].
      intros H; injection H as <-.
      apply Permutation_trans with (y :: x :: l); [apply perm_swap|].
      apply perm_skip, IH. reflexivity.
Qed.

Lemma sorted_from_perm (l acc r : list data) :
  sorted_from acc l = Return r -> Permutation (acc ++ l)%list r.
Proof.
  unfold sorted_from. revert acc. induction l as [|x l IH]; intros acc; simpl.
  - intros H; injection H as <-. rewrite app_nil_r. apply Permutation_refl.
  - destruct (insert_sorted x acc) as [acc'|err] eqn:E.
    + intros H. apply IH in H. apply insert_sorted_perm in E.
      apply Permutation_trans with (acc' ++ l)%list; [|exact H].
      apply Permutation_trans with ((x :: acc) ++ l)%list.
      * apply Permutation_sym, Permutation_middle.
      * now apply Permutation_app_tail.
    + intros H. exfalso. clear -H. induction l as [|y l IHl]; simpl in H; [discriminate|].
      now apply IHl.
Qed.

Lemma py_sorted_perm (l r : list data) : py_sorted l = Return r -> Permutation l r.
Proof. apply (sorted_from_perm l []). Qed.

Lemma seq_eqb_Forall2 {A B : Type} (eq : A -> B -> bool) (la : list A) (lb : list B) :
  seq_eqb eq la lb = true <-> Forall2 (fun a b => eq a b = true) la lb.
Proof.
  revert lb. induction la as [|a la IH]; intros [|b lb]; simpl.
  - split; [constructor | reflexivity].
  - split; [discriminate | inversion 1].
  - split; [discriminate | inversion 1].
  - rewrite andb_true_iff, IH. split.
    + intros [H1 H2]. now constructor.
    + inversion 1; subst. now split.
Qed.

Section Sorting.

(** The elements that [<] orders. *)
Variable L : list data.
Hypothesis HL : mutually_orderable L = true.

Let lt := ltb_of.
Let inL (x : data) : Prop := In x L.

Lemma ordered_in (x y z : data) : inL x -> inL y -> inL z -> ordered_triple x y z = true.
Proof using HL.
  intros Hx Hy Hz. unfold mutually_orderable in HL. rewrite forallb_forall in HL.
  specialize (HL x Hx). rewrite forallb_forall in HL. specialize (HL y Hy).
  rewrite forallb_forall in HL. exact (HL z Hz).
Qed.

Lemma py_lt_in (x y : data) : inL x -> inL y -> py_lt x y = Return (lt x y).
Proof using HL.
  intros Hx Hy. pose proof (ordered_in x y x Hx Hy Hx) as H.
  unfold ordered_triple in H. rewrite !andb_true_iff in H. destruct H as [[[H _] _] _].
  unfold lt, ltb_of, comparable in *. now destruct (py_lt x y).
Qed.

Lemma lt_asym (x y : data) : inL x -> inL y -> lt x y = true -> lt y x = false.
Proof using HL.
  intros Hx Hy Hlt. pose proof (ordered_in x y x Hx Hy Hx) as H.
  unfold ordered_triple in H. rewrite !andb_true_iff in H. destruct H as [[[_ H] _] _].
  fold lt in H. rewrite Hlt in H. now destruct (lt y x).
Qed.

(** "Not greater than" is transitive. *)
Lemma le_trans (x y z : data) :
  inL x -> inL y -> inL z -> lt y x = false -> lt z y = false -> lt z x = false.
Proof using HL.
  intros Hx Hy Hz H1 H2. pose proof (ordered_in x y z Hx Hy Hz) as H.
  unfold ordered_triple in H. rewrite !andb_true_iff in H. destruct H as [[_ H] _].
  fold lt in H. rewrite H1, H2 in H. now destruct (lt z x).
Qed.

Lemma py_eq_in (x y : data) :
  inL x -> inL y -> py_eq x y = negb (lt x y) && negb (lt y x).
Proof using HL.
  intros Hx Hy. pose proof (ordered_in x y x Hx Hy Hx) as H.
  unfold ordered_triple in H. rewrite !andb_true_iff in H. destruct H as [_ H].
  now apply eqb_prop in H.
Qed.

Lemma lt_irrefl (x : data) : inL x -> lt x x = false.
Proof using HL.
  intros Hx. destruct (lt x x) eqn:E; [|reflexivity]. now rewrite (lt_asym x x Hx Hx E) in E.
Qed.

Lemma lt_trans (x y z : data) :
  inL x -> inL y -> inL z -> lt x y = true -> lt y z = true -> lt x z = true.
Proof using HL.
  intros Hx Hy Hz H1 H2. destruct (lt x z) eqn:E; [reflexivity|].
  pose proof (lt_asym y z Hy Hz H2) as H3.
  pose proof (le_trans y z x Hy Hz Hx H3 E) as H4. congruence.
Qed.

(** Two elements of [L] that tie. *)
Definition tie (x y : data) : Prop := inL x /\ inL y /\ lt x y = false /\ lt y x = false.

Lemma tie_refl (x : data) : inL x -> tie x x.
Proof using HL. intros Hx. repeat split; auto using lt_irrefl. Qed.

Lemma tie_sym (x y : data) : tie x y -> tie y x.
Proof using Type. intros (Hx & Hy & H1 & H2). now repeat split. Qed.

Lemma tie_trans (x y z : data) : tie x y -> tie y z -> tie x z.
Proof using HL.
  intros (Hx & Hy & H1 & H2) (_ & Hz & H3 & H4). repeat split; auto.
  - exact (le_trans z y x Hz Hy Hx H3 H1).
  - exact (le_trans x y z Hx Hy Hz H2 H4).
Qed.

Lemma tie_py_eq (x y : data) : tie x y -> py_eq x y = true.
Proof using HL. intros (Hx & Hy & H1 & H2). now rewrite py_eq_in, H1, H2. Qed.

Lemma py_eq_tie (x y : data) : inL x -> inL y -> py_eq x y = true -> tie x y.
Proof using HL.
  intros Hx Hy H. rewrite py_eq_in in H by assumption.
  apply andb_true_iff in H as [H1 H2]. apply negb_true_iff in H1, H2. now repeat split.
Qed.

(** [<] does not tell two elements that tie apart. *)
Lemma lt_tie_r (x y y' : data) : inL x -> tie y y' -> lt x y = lt x y'.
Proof using HL.
  intros Hx (Hy & Hy' & H1 & H2).
  destruct (lt x y) eqn:E, (lt x y') eqn:E'; try reflexivity.
  - pose proof (le_trans y y' x Hy Hy' Hx H2 E'). congruence.
  - pose proof (le_trans y' y x Hy' Hy Hx H1 E). congruence.
Qed.

Lemma lt_tie_l (x x' y : data) : inL y -> tie x x' -> lt x y = lt x' y.
Proof using HL.
  intros Hy (Hx & Hx' & H1 & H2).
  destruct (lt x y) eqn:E, (lt x' y) eqn:E'; try reflexivity.
  - pose proof (le_trans y x' x Hy Hx' Hx E' H1). congruence.
  - pose proof (le_trans y x x' Hy Hx Hx' E H2). congruence.
Qed.

(** Two lists that tie position by position. *)
Definition ties (l1 l2 : list data) : Prop := Forall2 tie l1 l2.

Lemma ties_refl (l : list data) : Forall inL l -> ties l l.
Proof using HL. induction 1; constructor; auto using tie_refl. Qed.

Lemma ties_trans (l1 l2 l3 : list data) : ties l1 l2 -> ties l2 l3 -> ties l1 l3.
Proof using HL.
  intros H. revert l3. induction H as [|x y l1 l2 Hxy _ IH]; intros l3 H3.
  - exact H3.
  - inversion H3 as [|y' z l2' l3' Hyz Hr]; subst.
    constructor; [exact (tie_trans _ _ _ Hxy Hyz) | exact (IH _ Hr)].
Qed.

Lemma ties_sym (l1 l2 : list data) : ties l1 l2 -> ties l2 l1.
Proof using HL. induction 1; constructor; auto using tie_sym. Qed.

Lemma ties_in_l (l1 l2 : list data) : ties l1 l2 -> Forall inL l1.
Proof using HL. induction 1 as [|x y l1 l2 (Hx & _) _ IH]; constructor; assumption. Qed.

Lemma lt_ties (x x' y y' : data) : tie x x' -> tie y y' -> lt x y = lt x' y'.
Proof using HL.
  intros Hx Hy. rewrite (lt_tie_r x y y' (proj1 Hx) Hy).
  apply lt_tie_l; [exact (proj1 (proj2 Hy)) | exact Hx].
Qed.

(** Inserting tied elements into tied lists gives tied lists. *)
Lemma insert_by_ties (x x' : data) (l1 l2 : list data) :
  tie x x' -> ties l1 l2 -> ties (insert_by lt x l1) (insert_by lt x' l2).
Proof using HL.
  intros Hx H. induction H as [|y y' l1 l2 Hy Hl IH]; simpl.
  - constructor; [exact Hx | constructor].
  - rewrite (lt_ties x x' y y' Hx Hy). destruct (lt x' y').
    + constructor; [exact Hx|]. constructor; assumption.
    + constructor; assumption.
Qed.

Lemma insert_by_in (x : data) (l : list data) :
  inL x -> Forall inL l -> Forall inL (insert_by lt x l).
Proof using HL.
  intros Hx Hl. induction Hl as [|y l Hy Hl IH]; simpl.
  - constructor; [exact Hx | constructor].
  - destruct (lt x y); constructor; try assumption. now constructor.
Qed.

(** Two insertions commute, up to ties. *)
Lemma insert_by_swap (x y : data) (l : list data) :
  inL x -> inL y -> Forall inL l ->
  ties (insert_by lt x (insert_by lt y l)) (insert_by lt y (insert_by lt x l)).
Proof using HL.
  intros Hx Hy Hl. induction Hl as [|z l Hz Hl IH]; simpl.
  - destruct (lt x y) eqn:Exy, (lt y x) eqn:Eyx.
    + now rewrite (lt_asym x y Hx Hy Exy) in Eyx.
    + apply ties_refl. constructor; [exact Hx|]. constructor; [exact Hy | constructor].
    + apply ties_refl. constructor; [exact Hy|]. constructor; [exact Hx | constructor].
    + constructor; [now repeat split|]. constructor; [now repeat split | constructor].
  - destruct (lt y z) eqn:Eyz, (lt x z) eqn:Exz; simpl; rewrite ?Eyz, ?Exz.
    + destruct (lt x y) eqn:Exy, (lt y x) eqn:Eyx; rewrite ?Eyz, ?Exz.
      * now rewrite (lt_asym x y Hx Hy Exy) in Eyx.
      * apply ties_refl. repeat (constructor; [assumption|]). exact Hl.
      * apply ties_refl. repeat (constructor; [assumption|]). exact Hl.
      * constructor; [now repeat split|]. constructor; [now repeat split|].
        apply ties_refl. constructor; assumption.
    + destruct (lt x y) eqn:Exy.
      * now rewrite (lt_trans x y z Hx Hy Hz Exy Eyz) in Exz.
      * rewrite ?Exz. apply ties_refl. constructor; [assumption|]. constructor; [assumption|].
        now apply insert_by_in.
    + destruct (lt y x) eqn:Eyx.
      * now rewrite (lt_trans y x z Hy Hx Hz Eyx Exz) in Eyz.
      * rewrite ?Eyz. apply ties_refl. constructor; [assumption|]. constructor; [assumption|].
        now apply insert_by_in.
    + constructor; [now apply tie_refl | exact IH].
Qed.

(** The sort of tied lists, from tied lists already sorted. *)
Lemma sort_by_ties (l l' : list data) :
  ties l l' -> forall acc acc', ties acc acc' -> ties (sort_by lt acc l) (sort_by lt acc' l').
Proof using HL.
  unfold sort_by. induction 1 as [|x x' l l' Hx Hl IH]; intros acc acc' Ha; simpl.
  - exact Ha.
  - apply IH. now apply insert_by_ties.
Qed.

Lemma sort_by_in (l acc : list data) :
  Forall inL l -> Forall inL acc -> Forall inL (sort_by lt acc l).
Proof using HL.
  unfold sort_by. intros Hl. revert acc. induction Hl as [|x l Hx Hl IH]; intros acc Ha; simpl.
  - exact Ha.
  - apply IH. now apply insert_by_in.
Qed.

(** The sort does not depend on the order of its argument, up to ties. *)
Lemma sort_by_perm (l l' : list data) :
  Permutation l l' -> Forall inL l ->
  forall acc acc', ties acc acc' -> ties (sort_by lt acc l) (sort_by lt acc' l').
Proof using HL.
  induction 1 as [|x l l' Hp IH|x y l|l l' l'' Hp1 IH1 Hp2 IH2]; intros Hl acc acc' Ha.
  - exact Ha.
  - inversion Hl; subst. unfold sort_by in *. simpl. apply IH; [assumption|].
    apply insert_by_ties; [now apply tie_refl | exact Ha].
  - inversion Hl as [|? ? Hy Hl']; subst. inversion Hl' as [|? ? Hx Hl'']; subst.
    unfold sort_by. simpl. apply (sort_by_ties l l (ties_refl l Hl'')).
    apply ties_trans with (insert_by lt x (insert_by lt y acc')).
    + apply insert_by_ties; [now apply tie_refl|].
      apply insert_by_ties; [now apply tie_refl | exact Ha].
    + apply insert_by_swap; try assumption.
      apply (ties_in_l acc' acc), ties_sym, Ha.
  - apply ties_trans with (sort_by lt acc l').
    + apply IH1; [exact Hl|]. apply ties_refl. exact (ties_in_l _ _ Ha).
    + apply IH2; [|exact Ha]. exact (Permutation_Forall Hp1 Hl).
Qed.

(** On elements of [L], the sort of the source is that sort. *)
Lemma insert_sorted_in (x : data) (l : list data) :
  inL x -> Forall inL l -> insert_sorted x l = Return (insert_by lt x l).
Proof using HL.
  intros Hx Hl. induction Hl as [|y l Hy Hl IH]; simpl; [reflexivity|].
  rewrite (py_lt_in x y Hx Hy). simpl. destruct (lt x y); [reflexivity|].
  now rewrite IH.
Qed.

Lemma sorted_from_in (l acc : list data) :
  Forall inL l -> Forall inL acc -> sorted_from acc l = Return (sort_by lt acc l).
Proof using HL.
  unfold sorted_from, sort_by. intros Hl. revert acc.
  induction Hl as [|x l Hx Hl IH]; intros acc Ha; simpl; [reflexivity|].
  rewrite (insert_sorted_in x acc Hx Ha). apply IH. now apply insert_by_in.
Qed.

Lemma ties_seq_eqb (l1 l2 : list data) : ties l1 l2 -> seq_eqb py_eq l1 l2 = true.
Proof using HL.
  intros H. apply seq_eqb_Forall2. induction H; constructor; auto using tie_py_eq.
Qed.

(** Two lists of elements of [L] that are the same multiset have equal
    sorted copies. *)
Lemma sorted_same_multiset (l1 l2 : list data) :
  Forall inL l1 -> Forall inL l2 -> same_multiset l1 l2 ->
  exists s1 s2, py_sorted l1 = Return s1 /\ py_sorted l2 = Return s2 /\
                py_eq (DList s1) (DList s2) = true.
Proof using HL.
  intros H1 H2 (p1 & p2 & Hp1 & Hp2 & He).
  exists (sort_by lt [] l1), (sort_by lt [] l2).
  split; [apply sorted_from_in; [assumption | constructor]|].
  split; [apply sorted_from_in; [assumption | constructor]|].
  apply ties_seq_eqb.
  assert (Hq1 : Forall inL p1) by exact (Permutation_Forall Hp1 H1).
  assert (Hq2 : Forall inL p2) by exact (Permutation_Forall Hp2 H2).
  apply ties_trans with (sort_by lt [] p1); [apply sort_by_perm; [assumption..|constructor]|].
  apply ties_trans with (sort_by lt [] p2);
    [|apply sort_by_perm; [now apply Permutation_sym | assumption | constructor]].
  apply sort_by_ties; [|constructor].
  apply seq_eqb_Forall2 in He. clear Hp1 Hp2.
  revert Hq1 Hq2. induction He as [|a b p1 p2 Hab _ IH]; intros Hq1 Hq2; constructor.
  - inversion Hq1; inversion Hq2; subst. now apply py_eq_tie.
  - inversion Hq1; inversion Hq2; subst. now apply IH.
Qed.

End Sorting.

Lemma compare_body_list (student_answer : value) (correct_answer expected tolerance : data) :
  compare_body student_answer correct_answer (DStr "list") expected tolerance =
    match student_answer, expected with
    | VData (DList ls), DList le =>
        ss <- lift (py_sorted ls) ;;
        se <- lift (py_sorted le) ;;
        verdict (py_eq (DList ss) (DList se)) msg_correct msg_list_differs
    | _, _ => ret (mk_compared false msg_need_list)
    end.
Proof. reflexivity. Qed.

Lemma sorted_copies_same_multiset (l1 l2 : list data) :
  sorted_copies_equal l1 l2 -> same_multiset l1 l2.
Proof.
  intros (s1 & s2 & H1 & H2 & He). exists s1, s2.
  auto using py_sorted_perm.
Qed.

Lemma permutation_sorted_copies (submitted expected : list data) :
  mutually_orderable expected = true -> Permutation submitted expected ->
  sorted_copies_equal submitted expected.
Proof.
  intros Ho Hp. apply (sorted_same_multiset expected Ho).
  - apply (Permutation_Forall (Permutation_sym Hp)). now apply Forall_forall.
  - now apply Forall_forall.
  - exists expected, expected. split; [exact Hp|]. split; [apply Permutation_refl|].
    apply (ties_seq_eqb expected Ho), (ties_refl expected Ho). now apply Forall_forall.
Qed.

Lemma same_multiset_sorted_copies (submitted expected : list data) :
  mutually_orderable (submitted ++ expected)%list = true ->
  same_multiset submitted expected -> sorted_copies_equal submitted expected.
Proof.
  intros Ho. apply (sorted_same_multiset _ Ho); apply Forall_forall; intros x Hx;
    apply in_or_app; auto.
Qed.

(** Integers are mutually orderable. *)
Lemma ints_mutually_orderable (l : list Z) : mutually_orderable (map DInt l) = true.
Proof.
  unfold mutually_orderable.
  apply forallb_forall. intros x Hx. apply in_map_iff in Hx as (a & <- & _).
  apply forallb_forall. intros y Hy. apply in_map_iff in Hy as (b & <- & _).
  apply forallb_forall. intros z Hz. apply in_map_iff in Hz as (c & <- & _).
  unfold ordered_triple, comparable, ltb_of.
  cbn [py_lt py_eq as_num num_ltb num_eqb].
  destruct (Z.ltb_spec a b), (Z.ltb_spec b a), (Z.ltb_spec c b), (Z.ltb_spec c a),
    (Z.eqb_spec a b); simpl; try reflexivity; lia.
Qed.

(** C4: for a [list] descriptor whose answer is a list, and a submitted
    list: the answer is correct exactly when the sorted copies of the two
    lists are equal; then the two lists are the same multiset, and, where
    their elements are mutually orderable, two lists that are the same
    multiset are graded correct; where the elements of the expected list
    are mutually orderable, every permutation of it is graded correct.  A
    submitted value that is not a list is not correct. *)
Theorem check_answer_list (answers : dict) (problem_id : string)
    (student_answer : value) (e : dict) (expected : list data) (w : world) :
  dict_get problem_id answers = Some (DDict e) ->
  dict_get "type" e = Some (DStr "list") ->
  dict_get "answer" e = Some (DList expected) ->
  (forall submitted, student_answer = VData (DList submitted) ->
     exists correct feedback,
       check_answer answers problem_id student_answer w =
         (Return (Graded problem_id correct feedback (display_of e) student_answer), w) /\
       (correct = true <-> sorted_copies_equal submitted expected) /\
       (correct = true -> same_multiset submitted expected) /\
       (mutually_orderable (submitted ++ expected)%list = true ->
        same_multiset submitted expected -> correct = true) /\
       (mutually_orderable expected = true ->
        Permutation submitted expected -> correct = true)) /\
  ((forall submitted, student_answer <> VData (DList submitted)) ->
     check_answer answers problem_id student_answer w =
       (Return (Graded problem_id false msg_need_list (display_of e) student_answer), w)).
Proof.
  intros Hd Ht Ha.
  rewrite (check_answer_typed _ _ _ _ _ _ _ Hd Ht Ha), compare_body_list. split.
  - intros submitted ->.
    assert (H : exists correct feedback,
      (let (o, w') :=
         try_except
           (ss <- lift (py_sorted submitted) ;;
            se <- lift (py_sorted expected) ;;
            verdict (py_eq (DList ss) (DList se)) msg_correct msg_list_differs)
           (fun err => ret (mk_compared false (msg_error_prefix ++ exn_str err))) w in
       match o with
       | Return c =>
           (Return (Graded problem_id (cmp_match c) (cmp_feedback c) (display_of e)
                      (VData (DList submitted))), w')
       | Raise err => (Raise err, w')
       end) =
      (Return (Graded problem_id correct feedback (display_of e) (VData (DList submitted))), w) /\
      (correct = true <-> sorted_copies_equal submitted expected)).
    { unfold sorted_copies_equal, try_except, bind, lift.
      destruct (py_sorted submitted) as [ss|err] eqn:Es.
      - destruct (py_sorted expected) as [se|err] eqn:Ee.
        + eexists _, _. split; [reflexivity|]. cbn [cmp_match]. split.
          * intros H. now exists ss, se.
          * intros (s1 & s2 & H1 & H2 & H). congruence.
        + rewrite (mild_py_sorted _ _ Ee). eexists false, _. split; [reflexivity|].
          split; [discriminate|]. intros (s1 & s2 & _ & H2 & _). discriminate.
      - rewrite (mild_py_sorted _ _ Es). eexists false, _. split; [reflexivity|].
        split; [discriminate|]. intros (s1 & s2 & H1 & _). discriminate. }
    destruct H as (correct & feedback & Hc & Hiff). exists correct, feedback.
    split; [exact Hc|]. split; [exact Hiff|]. split; [|split].
    + intros H. apply sorted_copies_same_multiset. now apply Hiff.
    + intros Ho Hm. apply Hiff. now apply same_multiset_sorted_copies.
    + intros Ho Hp. apply Hiff. now apply permutation_sorted_copies.
  - intros Hs. destruct student_answer as [[ | | | | | submitted | | ] | | ]; try reflexivity.
    now elim (Hs submitted).
Qed.

End Grader.

(** * The grader on the examples *)

Definition check_example (problem_id : string) (student_answer : value) (w : world)
  : outcome check_result * world :=
  check_answer repr_example example_answers problem_id student_answer w.

Definition fetch_example (answer_file : string) : dict := example_answers.

Lemma add_state_independent : state_independent add_callable.
Proof.
  intros args w w'. simpl.
  repeat match goal with
         | |- context [match ?x with _ => _ end] => destruct x
         end; reflexivity.
Qed.

(** The examples of the specification. *)

Example exact_hello :
  fst (check_example "plain_1" (VData (DStr "hello")) w0) =
    Return (Graded "plain_1" true msg_correct (DStr hidden_answer) (VData (DStr "hello"))) /\
  fst (check_example "plain_1" (VData (DStr "Hello")) w0) =
    Return (Graded "plain_1" false msg_wrong (DStr hidden_answer) (VData (DStr "Hello"))).
Proof. split; reflexivity. Qed.

(** Expected 10 with tolerance 0.5: 10.5 is correct, 10.51 is not. *)
Example numeric_boundary :
  fst (check_example "numeric_1" (VData (DFloat 10.5)) w0) =
    Return (Graded "numeric_1" true msg_correct (DStr hidden_answer) (VData (DFloat 10.5))) /\
  fst (check_example "numeric_1" (VData (DFloat 10.51)) w0) =
    Return (Graded "numeric_1" false (msg_numeric_differs "0.5100") (DStr hidden_answer)
              (VData (DFloat 10.51))).
Proof. split; vm_compute; reflexivity. Qed.

(** Expected [1, 2, 3]: [3, 1, 2] is correct, [1, 2, 2] is not. *)
Example list_multiset :
  fst (check_example "list_1" (VData (DList [DInt 3; DInt 1; DInt 2])) w0) =
    Return (Graded "list_1" true msg_correct (DStr hidden_answer)
              (VData (DList [DInt 3; DInt 1; DInt 2]))) /\
  fst (check_example "list_1" (VData (DList [DInt 1; DInt 2; DInt 2])) w0) =
    Return (Graded "list_1" false msg_list_differs (DStr hidden_answer)
              (VData (DList [DInt 1; DInt 2; DInt 2]))).
Proof. split; vm_compute; reflexivity. Qed.

(** The two test cases of [add]: both pass. *)
Example function_all_passed :
  check_example "function_1" add_callable w0 =
    (Return (Graded "function_1" true msg_all_passed (DStr hidden_answer) add_callable), w0).
Proof. reflexivity. Qed.

(** A submitted value that is not callable fails every case, and the run
    goes on. *)
Example function_not_callable :
  check_example "function_1" (VData (DInt 1)) w0 =
    (Return (Graded "function_1" false (msg_tests 0 2) (DStr hidden_answer) (VData (DInt 1))), w0).
Proof. reflexivity. Qed.

(** Both patterns in the code: the forbidden one is reported. *)
Example pattern_forbidden_found :
  fst (check_example "pattern_1" (VData (DStr "plt.plot(x); plt.show()")) w0) =
    Return (Graded "pattern_1" false (msg_forbidden ["show("]) (DStr hidden_answer)
              (VData (DStr "plt.plot(x); plt.show()"))) /\
  fst (check_example "pattern_1" (VData (DStr "plt.show()")) w0) =
    Return (Graded "pattern_1" false (msg_missing ["plot("] ++ " | " ++ msg_forbidden ["show("])
              (DStr hidden_answer) (VData (DStr "plt.show()"))).
Proof. split; vm_compute; reflexivity. Qed.

(** [submit_answer] on an unknown problem: the report stops at the rule,
    with a [KeyError]. *)
Example submit_answer_unknown_problem :
  submit_answer repr_example upper_ascii fetch_example "nope" (VData (DInt 4)) "test1" w0 =
    (Raise (mk_exn KeyError "'problem_id'"), mk_world (DInt 0) [rule]).
Proof. reflexivity. Qed.

(** ** The claims on the examples *)

(** Sorting a list that holds a number and a string fails; the failure is
    the verdict. *)
Lemma check_answer_contains_errors_witness :
  exists correct feedback w',
    check_example "list_2" (VData (DList [DInt 1; DInt 2])) w0 =
      (Return (Graded "list_2" correct feedback (DStr hidden_answer)
                 (VData (DList [DInt 1; DInt 2]))), w') /\
    forall err w1,
      compare_body repr_example (VData (DList [DInt 1; DInt 2]))
        (DDict [("type", DStr "list"); ("answer", DList [DInt 1; DStr "a"])])
        (DStr "list") (DList [DInt 1; DStr "a"]) (DInt 0) w0 = (Raise err, w1) ->
      correct = false /\ feedback = msg_error_prefix ++ exn_str err /\ w' = w1.
Proof.
  exact (check_answer_contains_errors repr_example example_answers "list_2"
           (VData (DList [DInt 1; DInt 2])) _ (DList [DInt 1; DStr "a"]) w0
           eq_refl eq_refl (data_raises_exceptions_only _)).
Defined.

(** A callable that leaves through [sys.exit()]: the [SystemExit] is caught
    neither by the loop nor by [_compare_answers], and [check_answer] raises
    it. *)
Lemma system_exit_leaves_check_answer :
  dict_get "function_1" example_answers =
    Some (DDict [("type", DStr "function"); ("answer", DNone); ("test_cases", add_tests)]) /\
  check_example "function_1" exit_callable w0 = (Raise (mk_exn SystemExit ""), w0) /\
  forall correct feedback shown w',
    check_example "function_1" exit_callable w0 <>
      (Return (Graded "function_1" correct feedback shown exit_callable), w').
Proof.
  split; [reflexivity|]. split; [reflexivity|]. intros correct feedback shown w' H.
  discriminate H.
Qed.

Lemma check_answer_unknown_problem_witness :
  dict_get "problem_9" example_answers = None /\
  exists message,
    check_example "problem_9" (VData (DInt 1)) w0 = (Return (NotFound "error" message), w0) /\
    str_contains "problem_9" message = true /\
    has_key (NotFound "error" message) "correct" = false.
Proof.
  split; [reflexivity|].
  exact (check_answer_unknown_problem repr_example example_answers "problem_9"
           (VData (DInt 1)) w0 eq_refl).
Defined.


Lemma check_answer_list_witness :
  exists correct feedback,
    check_example "list_1" (VData (DList [DInt 3; DInt 1; DInt 2])) w0 =
      (Return (Graded "list_1" correct feedback (DStr hidden_answer)
                 (VData (DList [DInt 3; DInt 1; DInt 2]))), w0) /\
    (correct = true <->
       sorted_copies_equal [DInt 3; DInt 1; DInt 2] [DInt 1; DInt 2; DInt 3]) /\
    (correct = true -> same_multiset [DInt 3; DInt 1; DInt 2] [DInt 1; DInt 2; DInt 3]) /\
    (mutually_orderable ([DInt 3; DInt 1; DInt 2] ++ [DInt 1; DInt 2; DInt 3])%list = true ->
     same_multiset [DInt 3; DInt 1; DInt 2] [DInt 1; DInt 2; DInt 3] -> correct = true) /\
    (mutually_orderable [DInt 1; DInt 2; DInt 3] = true ->
     Permutation [DInt 3; DInt 1; DInt 2] [DInt 1; DInt 2; DInt 3] -> correct = true).
Proof.
  exact (proj1 (check_answer_list repr_example example_answers "list_1"
                  (VData (DList [DInt 3; DInt 1; DInt 2])) _ [DInt 1; DInt 2; DInt 3] w0
                  eq_refl eq_refl eq_refl)
           [DInt 3; DInt 1; DInt 2] eq_refl).
Defined.

(** The hypotheses on the order hold of the example: its elements are
    mutually orderable, and the submitted list is a permutation. *)
Example list_example_orderable :
  mutually_orderable [DInt 1; DInt 2; DInt 3] = true /\
  mutually_orderable [DInt 1; DFloat 1.5; DBool true; DInt 0] = true /\
  mutually_orderable [DStr "b"; DStr "a"] = true /\
  mutually_orderable [DInt 1; DStr "a"] = false /\
  mutually_orderable [DFloat nan] = false /\
  Permutation [DInt 3; DInt 1; DInt 2] [DInt 1; DInt 2; DInt 3].
Proof.
  repeat (split; [vm_compute; reflexivity|]).
  apply Permutation_trans with [DInt 1; DInt 3; DInt 2]; [apply perm_swap|].
  apply perm_skip, perm_swap.
Qed.




(** A wrong answer: the verdict carries the displayed answer, and the report
    has the line that shows it. *)
Lemma display_answer_exposure_witness :
  check_answer repr_example (fetch_example ("test1" ++ "/answers.json")) "exact_1"
    (VData (DInt 41)) w0 =
    (Return (Graded "exact_1" false msg_wrong (DStr "42") (VData (DInt 41))), w0) /\
  (exists e, dict_get "exact_1" (fetch_example ("test1" ++ "/answers.json")) = Some (DDict e) /\
             DStr "42" = display_of e) /\
  submit_answer repr_example upper_ascii fetch_example "exact_1" (VData (DInt 41)) "test1" w0 =
    (Return (Graded "exact_1" false msg_wrong (DStr "42") (VData (DInt 41))),
     mk_world (DInt 0)
       [rule; "📝 TEST1 - 문제 exact_1"; "📊 결과: ❌ 오답"; "💬 " ++ msg_wrong;
        "🔍 참고: 42"; rule]).
Proof.
  split; [reflexivity|].
  exact (display_answer_exposure repr_example upper_ascii fetch_example "test1" "exact_1"
           (VData (DInt 41)) w0 w0 "exact_1" false msg_wrong (DStr "42") (VData (DInt 41))
           eq_refl).
Defined.

(** A correct answer: the verdict [check_answer] returns carries the
    displayed answer all the same. *)
Lemma correct_verdict_carries_display_answer :
  check_example "exact_1" (VData (DInt 42)) w0 =
    (Return (Graded "exact_1" true msg_correct (DStr "42") (VData (DInt 42))), w0) /\
  dict_get "display_answer"
    [("type", DStr "exact"); ("answer", DInt 42); ("display_answer", DStr "42")] =
    Some (DStr "42") /\
  py_eq (DStr "42") (DStr hidden_answer) = false.
Proof. repeat split. Qed.

Lemma check_answer_repeatable_witness :
  (forall w w',
     fst (check_example "function_1" add_callable w) =
     fst (check_example "function_1" add_callable w')) /\
  (forall w,
     fst (check_example "function_1" add_callable
            (snd (check_example "function_1" add_callable w))) =
     fst (check_example "function_1" add_callable w)) /\
  (keeps_state add_callable ->
     forall w, snd (check_example "function_1" add_callable w) = w).
Proof.
  exact (check_answer_repeatable repr_example example_answers "function_1" add_callable
           add_state_independent).
Defined.

(** A callable with a counter: the first call of [check_answer] grades it
    correct, the second one, with the same arguments, does not. *)
Lemma stateful_callable_not_repeatable :
  fst (check_example "function_1" once_callable w0) =
    Return (Graded "function_1" true msg_all_passed (DStr hidden_answer) once_callable) /\
  fst (check_example "function_1" once_callable
         (snd (check_example "function_1" once_callable w0))) =
    Return (Graded "function_1" false (msg_tests 1 2) (DStr hidden_answer) once_callable) /\
  fst (check_example "function_1" once_callable
         (snd (check_example "function_1" once_callable w0))) <>
  fst (check_example "function_1" once_callable w0).
Proof.
  split; [reflexivity|]. split; [reflexivity|]. intros H.
  assert (H1 : fst (check_example "function_1" once_callable w0) =
               Return (Graded "function_1" true msg_all_passed (DStr hidden_answer)
                         once_callable)) by reflexivity.
  assert (H2 : fst (check_example "function_1" once_callable
                      (snd (check_example "function_1" once_callable w0))) =
               Return (Graded "function_1" false (msg_tests 1 2) (DStr hidden_answer)
                         once_callable)) by reflexivity.
  rewrite H1, H2 in H. discriminate H.
Qed.

Lemma check_answer_no_test_cases_witness :
  check_example "function_2" (VData (DInt 7)) w0 =
    (Return (Graded "function_2" true msg_all_passed (DStr hidden_answer) (VData (DInt 7))), w0).
Proof.
  exact (check_answer_no_test_cases repr_example example_answers "function_2"
           (VData (DInt 7)) _ DNone w0 eq_refl eq_refl eq_refl (or_introl eq_refl)).
Defined.

(** A [function] descriptor with no test cases and no [answer] entry:
    [check_answer] raises [KeyError] and grades nothing. *)
Lemma function_without_answer_raises :
  dict_get "function_3" example_answers =
    Some (DDict [("type", DStr "function"); ("test_cases", DList [])]) /\
  check_example "function_3" (VData (DInt 7)) w0 = (Raise (mk_exn KeyError "'answer'"), w0) /\
  check_example "function_3" (VData (DInt 7)) w0 <>
    (Return (Graded "function_3" true msg_all_passed (DStr hidden_answer) (VData (DInt 7))), w0).
Proof. repeat split. discriminate. Qed.

Lemma check_answer_type_absent_witness :
  exists correct feedback,
    check_example "plain_1" (VData (DStr "hello")) w0 =
      (Return (Graded "plain_1" correct feedback (DStr hidden_answer) (VData (DStr "hello"))),
       w0) /\
    correct = true /\
    feedback = msg_correct /\
    (forall d, VData (DStr "hello") = VData d -> correct = py_eq d (DStr "hello")) /\
    feedback <> msg_unsupported.
Proof.
  exact (check_answer_type_absent repr_example example_answers "plain_1"
           (VData (DStr "hello")) _ (DStr "hello") w0 eq_refl eq_refl eq_refl).
Defined.

(** * The rest of the grader: the loader and the check functions *)

(** [s.rstrip('/')] *)
Fixpoint rstrip_slash (s : string) : string :=
  match s with
  | EmptyString => EmptyString
  | String c s' =>
      match rstrip_slash s' with
      | EmptyString => if Ascii.eqb c "/" then EmptyString else String c EmptyString
      | r => String c r
      end
  end.

(** An [AutoGrader], and [AutoGrader.__init__]. *)
Record AutoGrader : Type := mk_grader { repo_url : string; branch : string }.

Definition AutoGrader_init (repo_url : string) (branch : string) : AutoGrader :=
  mk_grader (rstrip_slash repo_url) branch.

(** [key in container] for a string [key]. *)
Definition py_contains_str (container : data) (key : string) : outcome bool :=
  match container with
  | DDict e => Return (match dict_get key e with Some _ => true | None => false end)
  | DList l | DTuple l => Return (existsb (fun x => py_eq x (DStr key)) l)
  | DStr s => Return (str_contains key s)
  | _ => type_error ("argument of type '" ++ type_name container ++ "' is not iterable")
  end.

(** [d[k] = v]: the value of an entry is replaced where it stands, a new
    entry is put last. *)
Fixpoint dict_set {A : Type} (k : string) (v : A) (d : list (string * A)) : list (string * A) :=
  match d with
  | [] => [(k, v)]
  | (k', v') :: d' => if String.eqb k k' then (k, v) :: d' else (k', v') :: dict_set k v d'
  end.

(** [range(a, b)] *)
Definition py_range (a b : Z) : list Z :=
  map (fun k => a + Z.of_nat k) (seq 0 (Z.to_nat (b - a))).

(** What a global name is bound to: the function that
    [make_check_function(pid, lab)] returns, told by the [pid] and the [lab]
    it closes over, or any other value. *)
Inductive global : Type :=
| GCheck (pid lab : string)
| GValue (v : value).

Definition make_check_function (pid lab : string) : global := GCheck pid lab.

(** [create_lab_functions], on the dict of the globals. *)
Definition create_lab_functions (lab_name : string) (num_problems : Z)
    (globals_dict : list (string * global)) : list (string * global) :=
  fold_left
    (fun g i =>
       let problem_id := "problem_" ++ str_of_Z i in
       let func_name := "check_problem_" ++ str_of_Z i in
       dict_set func_name (make_check_function problem_id lab_name) g)
    (py_range 1 (num_problems + 1)) globals_dict.

Definition REPO_URL : string :=
  "https://raw.githubusercontent.com/lsy8647/lab_grading/refs/heads/main/".

(** The global [grader]. *)
Definition grader : AutoGrader := AutoGrader_init REPO_URL "main".

Definition msg_fetch_failed (e : exn) : string :=
  "❌ 정답 파일을 가져오는데 실패했습니다: " ++ exn_str e.

Section Loader.

Variable py_repr : data -> string.
Variable str_upper : string -> string.

(** What [requests.get(url)], [raise_for_status()] and
    [json.loads(response.text)] give for a URL: the JSON of the file, or
    the error one of them raises. *)
Variable get_json : string -> outcome data.

(** [AutoGrader.fetch_answer_file] *)
Definition fetch_answer_file (self : AutoGrader) (file_path : string) : M data :=
  try_except
    (let url := repo_url self ++ "/" ++ file_path in
     lift (get_json url))
    (fun e => print (msg_fetch_failed e) ;;; ret (DDict [])).

(** [AutoGrader.check_answer], with the fetch: [check_answer] above is the
    part of it that follows the fetch, on answers that are a dict. *)
Definition AutoGrader_check_answer (self : AutoGrader) (problem_id : string)
    (student_answer : value) (answer_file : string) : M check_result :=
  answers <- fetch_answer_file self answer_file ;;
  found <- lift (py_contains_str answers problem_id) ;;
  if negb found then ret (NotFound "error" (msg_not_found problem_id))
  else
    correct_answer <- lift (py_getitem answers problem_id) ;;
    result <- _compare_answers py_repr student_answer correct_answer ;;
    expected <- lift (py_get correct_answer "display_answer" (DStr hidden_answer)) ;;
    ret (Graded problem_id (cmp_match result) (cmp_feedback result) expected student_answer).

(** [submit_answer], on the global [grader]. *)
Definition submit_answer_online (problem_id : string) (answer : value) (lab_name : string)
  : M check_result :=
  let answer_file := lab_name ++ "/answers.json" in
  result <- AutoGrader_check_answer grader problem_id answer answer_file ;;
  print rule ;;;
  match result with
  | NotFound _ _ => lift (Raise (mk_exn KeyError "'problem_id'"))
  | Graded pid correct feedback expected _ =>
      print ("📝 " ++ str_upper lab_name ++ " - 문제 " ++ pid) ;;;
      print ("📊 결과: " ++ (if correct then "✅ 정답" else "❌ 오답")) ;;;
      print ("💬 " ++ feedback) ;;;
      (if negb correct && negb (py_eq expected (DStr hidden_answer))
       then print ("🔍 참고: " ++ py_str py_repr expected)
       else ret tt) ;;;
      print rule ;;;
      ret result
  end.

(** The [check_function] that [make_check_function(pid, lab)] returns. *)
Definition check_function (pid lab : string) (student_answer : value) : M check_result :=
  submit_answer_online pid student_answer lab.

End Loader.

(** ** The loader *)

(** [k] slashes. *)
Fixpoint slashes (k : nat) : string :=
  match k with
  | O => ""
  | S k' => String "/" (slashes k')
  end.

Lemma rstrip_slash_slashes (k : nat) : rstrip_slash (slashes k) = "".
Proof. induction k as [|k IH]; simpl; [reflexivity | now rewrite IH]. Qed.

Lemma rstrip_slash_app_slashes (s : string) (k : nat) :
  rstrip_slash (s ++ slashes k) = rstrip_slash s.
Proof.
  induction s as [|c s IH]; simpl.
  - apply rstrip_slash_slashes.
  - now rewrite IH.
Qed.

Lemma rstrip_slash_split (s : string) : exists k, s = rstrip_slash s ++ slashes k.
Proof.
  induction s as [|c s (k & IH)]; simpl.
  - now exists 0%nat.
  - destruct (rstrip_slash s) as [|d r] eqn:E.
    + destruct (Ascii.eqb_spec c "/") as [->|_].
      * exists (S k). simpl. f_equal. exact IH.
      * exists k. simpl. f_equal. exact IH.
    + exists k. simpl. f_equal. exact IH.
Qed.

Lemma rstrip_slash_end (s r : string) : rstrip_slash s <> r ++ "/".
Proof.
  revert r. induction s as [|c s IH]; intros r; simpl.
  - now destruct r.
  - destruct (rstrip_slash s) as [|d t] eqn:E.
    + destruct (Ascii.eqb_spec c "/") as [->|ne]; [now destruct r|].
      destruct r as [|c' [|c'' r]]; simpl; try discriminate.
      intros H. injection H as H. now elim ne.
    + destruct r as [|c' r]; simpl; [discriminate|].
      intros H. injection H as _ H. exact (IH r H).
Qed.

(** [AutoGrader.__init__] drops every slash at the end of the URL: the URL
    it keeps does not end with a slash, it is the given one without a run
    of slashes at its end, and slashes added at the end of the given URL
    change nothing. *)
Theorem init_strips_slashes (url branch_name : string) :
  (forall r, repo_url (AutoGrader_init url branch_name) <> r ++ "/") /\
  (exists k, url = repo_url (AutoGrader_init url branch_name) ++ slashes k) /\
  (forall k, AutoGrader_init (url ++ slashes k) branch_name = AutoGrader_init url branch_name).
Proof.
  split; [|split].
  - intros r. apply rstrip_slash_end.
  - apply rstrip_slash_split.
  - intros k. unfold AutoGrader_init. now rewrite rstrip_slash_app_slashes.
Qed.

Section LoaderProperties.

Variable py_repr : data -> string.
Variable str_upper : string -> string.
Variable get_json : string -> outcome data.

Lemma fetch_answer_file_cases (self : AutoGrader) (file_path : string) (w : world) :
  (forall j, get_json (repo_url self ++ "/" ++ file_path) = Return j ->
     fetch_answer_file get_json self file_path w = (Return j, w)) /\
  (forall e, get_json (repo_url self ++ "/" ++ file_path) = Raise e -> catchable e = true ->
     fetch_answer_file get_json self file_path w =
       (Return (DDict []), mk_world (store w) (stdout w ++ [msg_fetch_failed e])%list)).
Proof.
  unfold fetch_answer_file, try_except, lift. split.
  - intros j ->. reflexivity.
  - intros e -> ->. reflexivity.
Qed.

(** [fetch_answer_file] hands over the JSON of the file and prints
    nothing; where the request or the parsing raises an error deriving from
    [Exception], it raises nothing, prints one line with the text of the
    error, and returns the empty dict; an error that does not derive from
    [Exception] (a [KeyboardInterrupt] during the request) leaves it, and
    nothing is printed. *)
Theorem fetch_answer_file_contains_failures (self : AutoGrader) (file_path : string)
    (w : world) :
  (forall j, get_json (repo_url self ++ "/" ++ file_path) = Return j ->
     fetch_answer_file get_json self file_path w = (Return j, w)) /\
  (forall e, get_json (repo_url self ++ "/" ++ file_path) = Raise e -> catchable e = true ->
     fetch_answer_file get_json self file_path w =
       (Return (DDict []), mk_world (store w) (stdout w ++ [msg_fetch_failed e])%list)) /\
  (forall e, get_json (repo_url self ++ "/" ++ file_path) = Raise e -> catchable e = false ->
     fetch_answer_file get_json self file_path w = (Raise e, w)).
Proof.
  split; [|split]; try apply fetch_answer_file_cases.
  intros e Hg He. unfold fetch_answer_file, try_except, lift. now rewrite Hg, He.
Qed.

(** The answers file cannot be fetched: [AutoGrader.check_answer] reports
    every problem as not found, whatever the id and the answer, after the
    line of [fetch_answer_file]; the submitted value is not looked at. *)
Theorem check_answer_fetch_failed (self : AutoGrader) (problem_id : string)
    (student_answer : value) (answer_file : string) (e : exn) (w : world) :
  get_json (repo_url self ++ "/" ++ answer_file) = Raise e ->
  catchable e = true ->
  AutoGrader_check_answer py_repr get_json self problem_id student_answer answer_file w =
    (Return (NotFound "error" (msg_not_found problem_id)),
     mk_world (store w) (stdout w ++ [msg_fetch_failed e])%list).
Proof.
  intros Hg He. unfold AutoGrader_check_answer, bind.
  rewrite (proj2 (fetch_answer_file_cases self answer_file w) e Hg He).
  reflexivity.
Qed.

(** What follows a fetch that gave [j]. *)
Lemma check_answer_after_fetch_any (self : AutoGrader) (problem_id : string)
    (student_answer : value) (answer_file : string) (j : data) (w : world) :
  get_json (repo_url self ++ "/" ++ answer_file) = Return j ->
  AutoGrader_check_answer py_repr get_json self problem_id student_answer answer_file w =
    (found <- lift (py_contains_str j problem_id) ;;
     if negb found then ret (NotFound "error" (msg_not_found problem_id))
     else
       correct_answer <- lift (py_getitem j problem_id) ;;
       result <- _compare_answers py_repr student_answer correct_answer ;;
       expected <- lift (py_get correct_answer "display_answer" (DStr hidden_answer)) ;;
       ret (Graded problem_id (cmp_match result) (cmp_feedback result) expected
              student_answer)) w.
Proof.
  intros Hg. unfold AutoGrader_check_answer. unfold bind at 1.
  now rewrite (proj1 (fetch_answer_file_cases self answer_file w) _ Hg).
Qed.

(** With answers that are a dict, what follows the fetch is [check_answer]. *)
Lemma check_answer_after_fetch (self : AutoGrader) (problem_id : string)
    (student_answer : value) (answer_file : string) (answers : dict) (w : world) :
  get_json (repo_url self ++ "/" ++ answer_file) = Return (DDict answers) ->
  AutoGrader_check_answer py_repr get_json self problem_id student_answer answer_file w =
    check_answer py_repr answers problem_id student_answer w.
Proof.
  intros Hg. unfold AutoGrader_check_answer, check_answer. unfold bind at 1.
  rewrite (proj1 (fetch_answer_file_cases self answer_file w) _ Hg).
  unfold bind at 1. cbn [lift py_contains_str].
  destruct (dict_get problem_id answers) as [ca|] eqn:Hd; cbn [negb]; [|reflexivity].
  unfold bind at 1. cbn [lift py_getitem]. now rewrite Hd.
Qed.

(** Where the file at the URL of the grader is a JSON object,
    [AutoGrader.check_answer] prints nothing of its own and is
    [check_answer] on the entries of that object: what is proved of
    [check_answer] holds of the method. *)
Theorem check_answer_fetched (self : AutoGrader) (problem_id : string)
    (student_answer : value) (answer_file : string) (answers : dict) (w : world) :
  get_json (repo_url self ++ "/" ++ answer_file) = Return (DDict answers) ->
  AutoGrader_check_answer py_repr get_json self problem_id student_answer answer_file w =
    check_answer py_repr answers problem_id student_answer w.
Proof. apply check_answer_after_fetch. Qed.

(** The answers file holds JSON that is not an object.  A list: an id that
    is not one of its elements is reported as not found, an id that is one
    makes [AutoGrader.check_answer] raise [TypeError].  A string: the same,
    with "occurs in it" for "is an element".  [null], a boolean or a number:
    [TypeError], whatever the id.  Nothing is printed. *)
Theorem check_answer_answers_not_an_object (self : AutoGrader) (problem_id : string)
    (student_answer : value) (answer_file : string) (j : data) (w : world) :
  get_json (repo_url self ++ "/" ++ answer_file) = Return j ->
  let result :=
    AutoGrader_check_answer py_repr get_json self problem_id student_answer answer_file w in
  let type_error_raised := exists text, result = (Raise (mk_exn TypeError text), w) in
  let not_found := result = (Return (NotFound "error" (msg_not_found problem_id)), w) in
  (forall l, j = DList l ->
     if existsb (fun x => py_eq x (DStr problem_id)) l then type_error_raised else not_found) /\
  (forall s, j = DStr s ->
     if str_contains problem_id s then type_error_raised else not_found) /\
  (as_num j <> None \/ j = DNone -> type_error_raised).
Proof.
  intros Hg result type_error_raised not_found.
  subst type_error_raised not_found result.
  rewrite (check_answer_after_fetch_any _ _ _ _ _ _ Hg).
  split; [|split].
  - intros l ->. unfold bind at 1 3. cbn [lift py_contains_str].
    destruct (existsb _ l); [eexists|]; reflexivity.
  - intros s ->. unfold bind at 1 3. cbn [lift py_contains_str].
    destruct (str_contains problem_id s); [eexists|]; reflexivity.
  - intros [H| ->]; [|eexists; reflexivity].
    destruct j; try (eexists; reflexivity); now elim H.
Qed.

(** The answers file cannot be fetched: [submit_answer] prints the line of
    the failed fetch and the rule, then raises [KeyError] for the
    [problem_id] entry that the result of [check_answer] does not have. *)
Theorem submit_answer_fetch_failed (problem_id : string) (answer : value)
    (lab_name : string) (e : exn) (w : world) :
  get_json (repo_url grader ++ "/" ++ (lab_name ++ "/answers.json")) = Raise e ->
  catchable e = true ->
  submit_answer_online py_repr str_upper get_json problem_id answer lab_name w =
    (Raise (mk_exn KeyError "'problem_id'"),
     mk_world (store w) (stdout w ++ [msg_fetch_failed e; rule])%list).
Proof.
  intros Hg He. unfold submit_answer_online, AutoGrader_check_answer. unfold bind at 1.
  unfold bind at 1.
  rewrite (proj2 (fetch_answer_file_cases grader _ w) e Hg He).
  unfold bind, print, lift. cbn [py_contains_str dict_get negb ret store stdout].
  now rewrite <- app_assoc.
Qed.

(** Where the answers file is a JSON object, [submit_answer] on the global
    grader is [submit_answer] on the entries of that object. *)
Theorem submit_answer_fetched (problem_id : string) (answer : value)
    (lab_name : string) (answers : dict) (w : world) :
  get_json (repo_url grader ++ "/" ++ (lab_name ++ "/answers.json")) = Return (DDict answers) ->
  submit_answer_online py_repr str_upper get_json problem_id answer lab_name w =
    submit_answer py_repr str_upper (fun _ => answers) problem_id answer lab_name w.
Proof.
  intros Hg. unfold submit_answer_online, submit_answer. unfold bind at 1.
  rewrite (check_answer_after_fetch _ _ _ _ _ _ Hg). reflexivity.
Qed.

(** [submit_answer] for a problem that is not in the answers: the rule is
    printed, then [KeyError] is raised for the [problem_id] entry, and no
    report follows. *)
Theorem submit_answer_unknown (fetch : string -> dict) (problem_id : string)
    (answer : value) (lab_name : string) (w : world) :
  dict_get problem_id (fetch (lab_name ++ "/answers.json")) = None ->
  submit_answer py_repr str_upper fetch problem_id answer lab_name w =
    (Raise (mk_exn KeyError "'problem_id'"),
     mk_world (store w) (stdout w ++ [rule])%list).
Proof.
  intros Hd. unfold submit_answer, check_answer. rewrite Hd. reflexivity.
Qed.

End LoaderProperties.

(** ** The check functions *)

Lemma dict_get_set_same {A : Type} (k : string) (v : A) (d : list (string * A)) :
  dict_get k (dict_set k v d) = Some v.
Proof.
  induction d as [|[k' v'] d IH]; simpl.
  - now rewrite String.eqb_refl.
  - destruct (String.eqb k k') eqn:E; simpl; rewrite ?String.eqb_refl, ?E; auto.
Qed.

Lemma dict_get_set_other {A : Type} (k k' : string) (v : A) (d : list (string * A)) :
  k <> k' -> dict_get k (dict_set k' v d) = dict_get k d.
Proof.
  intros Hk. apply String.eqb_neq in Hk.
  induction d as [|[k0 v0] d IH]; simpl.
  - now rewrite Hk.
  - destruct (String.eqb k' k0) eqn:E; simpl.
    + apply String.eqb_eq in E as <-. now rewrite Hk.
    + now rewrite IH.
Qed.

(** Two integers are written differently. *)
Lemma str_of_Z_inj (a b : Z) : str_of_Z a = str_of_Z b -> a = b.
Proof.
  unfold str_of_Z. intros H.
  assert (E : Some (Z.to_int a) = Some (Z.to_int b))
    by (rewrite <- !NilEmpty.isi; now rewrite H).
  injection E as E. rewrite <- (DecimalZ.of_to a), <- (DecimalZ.of_to b). now rewrite E.
Qed.

Lemma append_inj (p a b : string) : p ++ a = p ++ b -> a = b.
Proof. induction p as [|c p IH]; simpl; intros H; [exact H | injection H as H; auto]. Qed.

Lemma in_py_range (a b i : Z) : In i (py_range a b) <-> a <= i < b.
Proof.
  unfold py_range. rewrite in_map_iff. split.
  - intros (k & <- & Hk). apply in_seq in Hk. lia.
  - intros H. exists (Z.to_nat (i - a)). split; [lia|]. apply in_seq. lia.
Qed.

(** The loop of [create_lab_functions] over the numbers [l]. *)
Definition register (lab_name : string) (l : list Z) (g : list (string * global))
  : list (string * global) :=
  fold_left
    (fun g i =>
       dict_set ("check_problem_" ++ str_of_Z i)
         (make_check_function ("problem_" ++ str_of_Z i) lab_name) g)
    l g.

Lemma register_other (lab_name name : string) (l : list Z) (g : list (string * global)) :
  (forall i, In i l -> name <> "check_problem_" ++ str_of_Z i) ->
  dict_get name (register lab_name l g) = dict_get name g.
Proof.
  unfold register. revert g. induction l as [|j l IH]; intros g H; simpl; [reflexivity|].
  rewrite IH by (intros i Hi; apply H; now right).
  apply dict_get_set_other, H. now left.
Qed.

Lemma register_in (lab_name : string) (l : list Z) (g : list (string * global)) (i : Z) :
  In i l ->
  dict_get ("check_problem_" ++ str_of_Z i) (register lab_name l g) =
    Some (make_check_function ("problem_" ++ str_of_Z i) lab_name).
Proof.
  revert g. induction l as [|j l IH]; intros g Hi; [now elim Hi|].
  change (register lab_name (j :: l) g)
    with (register lab_name l
            (dict_set ("check_problem_" ++ str_of_Z j)
               (make_check_function ("problem_" ++ str_of_Z j) lab_name) g)).
  destruct (in_dec Z.eq_dec i l) as [Hl|Hl]; [now apply IH|].
  destruct Hi as [->|Hi]; [|now elim Hl].
  rewrite register_other; [apply dict_get_set_same|].
  intros k Hk E. apply append_inj, str_of_Z_inj in E. now subst.
Qed.

(** After [create_lab_functions(lab_name, num_problems)], every name
    [check_problem_i] with [1 <= i <= num_problems] is bound to the check
    function of [problem_i] in that lab: each function has the number of its
    own turn of the loop, and a binding that was there under the name is
    replaced. *)
Theorem create_lab_functions_registers (lab_name : string) (num_problems : Z)
    (globals_dict : list (string * global)) (i : Z) :
  1 <= i <= num_problems ->
  dict_get ("check_problem_" ++ str_of_Z i)
    (create_lab_functions lab_name num_problems globals_dict) =
    Some (make_check_function ("problem_" ++ str_of_Z i) lab_name).
Proof.
  intros Hi. apply (register_in lab_name). apply in_py_range. lia.
Qed.

(** [create_lab_functions] binds nothing else: a name that is not
    [check_problem_i] for some [1 <= i <= num_problems] keeps its binding, or
    stays unbound; with [num_problems <= 0] the globals are left as they
    were. *)
Theorem create_lab_functions_keeps_others (lab_name : string) (num_problems : Z)
    (globals_dict : list (string * global)) :
  (forall name,
     (forall i, 1 <= i <= num_problems -> name <> "check_problem_" ++ str_of_Z i) ->
     dict_get name (create_lab_functions lab_name num_problems globals_dict) =
       dict_get name globals_dict) /\
  (num_problems <= 0 ->
   create_lab_functions lab_name num_problems globals_dict = globals_dict).
Proof.
  split.
  - intros name H. apply (register_other lab_name). intros i Hi. apply H.
    apply in_py_range in Hi. lia.
  - intros Hn. unfold create_lab_functions, py_range.
    replace (Z.to_nat (num_problems + 1 - 1)) with 0%nat by lia. reflexivity.
Qed.

(** ** More on the comparison *)

(** The values of [type] that [_compare_answers] knows. *)
Definition answer_types : list string :=
  ["exact"; "numeric"; "list"; "dataframe"; "series_dtype"; "series_values"; "function";
   "code_pattern"; "array_shape"; "array_values"].

(** A test case that cannot pass: it is not a dict with an [input] and an
    [output]. *)
Definition malformed_case (test_case : data) : bool :=
  match py_getitem test_case "input", py_getitem test_case "output" with
  | Return _, Return _ => false
  | _, _ => true
  end.

(** The texts of a correct answer. *)
Definition success_text (feedback : string) : Prop :=
  feedback = msg_correct \/ feedback = msg_all_passed \/ feedback = msg_pattern_ok.

(** What a computation returns satisfies [Q]. *)
Definition returns {A : Type} (m : M A) (Q : A -> Prop) : Prop :=
  forall w a w', m w = (Return a, w') -> Q a.

Section ComparatorProperties.

Variable py_repr : data -> string.

(** A descriptor that is not a dict: [check_answer] raises the
    [AttributeError] of its first read, whatever the answer. *)
Theorem check_answer_descriptor_not_a_dict (answers : dict) (problem_id : string)
    (student_answer : value) (correct_answer : data) (w : world) :
  dict_get problem_id answers = Some correct_answer ->
  (forall e, correct_answer <> DDict e) ->
  check_answer py_repr answers problem_id student_answer w =
    (Raise (mk_exn AttributeError
              ("'" ++ type_name correct_answer ++ "' object has no attribute 'get'")), w).
Proof.
  intros Hd Hn. unfold check_answer. rewrite Hd.
  destruct correct_answer; try reflexivity. now elim (Hn d).
Qed.

Lemma existsb_false_in {A : Type} (f : A -> bool) (l : list A) (x : A) :
  existsb f l = false -> In x l -> f x = false.
Proof.
  intros H Hx. destruct (f x) eqn:E; [|reflexivity].
  assert (existsb f l = true) by (apply existsb_exists; eauto). congruence.
Qed.

(** A [type] that is none of the ten known ones: every answer is graded
    wrong with the text for an unsupported type; nothing is compared and
    nothing is called. *)
Theorem check_answer_unsupported_type (answers : dict) (problem_id : string)
    (student_answer : value) (e : dict) (answer_type expected : data) (w : world) :
  dict_get problem_id answers = Some (DDict e) ->
  dict_get "type" e = Some answer_type ->
  dict_get "answer" e = Some expected ->
  existsb (fun k => py_eq answer_type (DStr k)) answer_types = false ->
  check_answer py_repr answers problem_id student_answer w =
    (Return (Graded problem_id false msg_unsupported (display_of e) student_answer), w).
Proof.
  intros Hd Ht Ha Hk. rewrite (check_answer_typed py_repr _ _ _ _ _ _ _ Hd Ht Ha).
  assert (H : forall k, In k answer_types -> py_eq answer_type (DStr k) = false)
    by (intros k; apply (existsb_false_in (fun k => py_eq answer_type (DStr k)) _ k Hk)).
  unfold compare_body.
  rewrite !H by (unfold answer_types; simpl; tauto). reflexivity.
Qed.

(** *** Numbers *)

(** An integer answer against an integer, with an integer tolerance (or
    none: it is 0): correct exactly when the distance is at most the
    tolerance.  So with a negative tolerance no answer is correct, the
    expected one included; and without tolerance only the expected integer
    is. *)
Theorem check_answer_numeric_integers (answers : dict) (problem_id : string)
    (e : dict) (s x t : Z) (w : world) :
  dict_get problem_id answers = Some (DDict e) ->
  dict_get "type" e = Some (DStr "numeric") ->
  dict_get "answer" e = Some (DInt x) ->
  field_or e "tolerance" (DInt 0) = DInt t ->
  exists feedback,
    check_answer py_repr answers problem_id (VData (DInt s)) w =
      (Return (Graded problem_id (Z.abs (s - x) <=? t) feedback (display_of e)
                 (VData (DInt s))), w) /\
    (t < 0 -> (Z.abs (s - x) <=? t) = false) /\
    (t = 0 -> (Z.abs (s - x) <=? t) = (s =? x)).
Proof.
  intros Hd Ht Ha Htol.
  rewrite (check_answer_typed py_repr _ _ _ _ _ _ _ Hd Ht Ha), compare_body_numeric, Htol.
  cbn [value_num as_num num_sub]. unfold try_except, bind, lift.
  cbn [num_le_data as_num num_abs num_leb].
  assert (H1 : t < 0 -> (Z.abs (s - x) <=? t) = false) by (intros; apply Z.leb_gt; lia).
  assert (H2 : t = 0 -> (Z.abs (s - x) <=? t) = (s =? x)).
  { intros ->. destruct (Z.eqb_spec s x), (Z.leb_spec (Z.abs (s - x)) 0); try reflexivity; lia. }
  destruct (Z.abs (s - x) <=? t).
  - exists msg_correct. auto.
  - destruct (format_4f (NInt (Z.abs (s - x)))) as [text|err] eqn:Ef.
    + eexists. split; [reflexivity | auto].
    + rewrite (mild_format_4f _ _ Ef). eexists. split; [reflexivity | auto].
Qed.

(** A tolerance that is not a number: every number is graded wrong, with
    the text of the error of the comparison (or of the subtraction, when
    that fails first). *)
Theorem check_answer_numeric_bad_tolerance (answers : dict) (problem_id : string)
    (student_answer : value) (e : dict) (expected tolerance : data) (s x : num) (w : world) :
  dict_get problem_id answers = Some (DDict e) ->
  dict_get "type" e = Some (DStr "numeric") ->
  dict_get "answer" e = Some expected ->
  dict_get "tolerance" e = Some tolerance ->
  as_num tolerance = None ->
  value_num student_answer = Some s ->
  as_num expected = Some x ->
  check_answer py_repr answers problem_id student_answer w =
    (Return (Graded problem_id false
               (msg_error_prefix ++
                match num_sub s x with
                | Return d =>
                    "'<=' not supported between instances of '" ++
                    match num_abs d with NInt _ => "int" | NFloat _ => "float" end ++
                    "' and '" ++ type_name tolerance ++ "'"
                | Raise err => exn_str err
                end)
               (display_of e) student_answer), w).
Proof.
  intros Hd Ht Ha Htol Hn Hs Hx.
  rewrite (check_answer_typed py_repr _ _ _ _ _ _ _ Hd Ht Ha), compare_body_numeric, Hs, Hx.
  unfold field_or. rewrite Htol. unfold try_except, bind, lift.
  destruct (num_sub s x) as [d|err] eqn:Es.
  - unfold num_le_data. rewrite Hn. reflexivity.
  - now rewrite (mild_num_sub _ _ _ Es).
Qed.

(** *** Test cases *)

Lemma run_test_cases_not_callable (student_answer : value) (cases : list data) (passed : nat)
    (w : world) :
  (forall f, student_answer <> VFunc f) ->
  run_test_cases student_answer cases passed w = (Return passed, w).
Proof.
  intros Hn. revert passed. induction cases as [|c cases IH]; intros passed; [reflexivity|].
  cbn [run_test_cases]. unfold bind.
  assert (E : run_test_case student_answer c w = (Return false, w)).
  { unfold run_test_case, try_except, bind, lift.
    destruct (py_getitem c "input") as [i|err] eqn:Ei;
      [|now rewrite (mild_py_getitem _ _ _ Ei)].
    destruct (py_getitem c "output") as [o|err] eqn:Eo;
      [|now rewrite (mild_py_getitem _ _ _ Eo)].
    destruct student_answer as [d|f|ob]; [| now elim (Hn f) |]; destruct i; reflexivity. }
  rewrite E. apply IH.
Qed.

(** A submitted value that is not callable, against at least one test
    case: every case fails, and the answer is graded wrong with 0 passed
    out of the number of cases. *)
Theorem check_answer_function_not_callable (answers : dict) (problem_id : string)
    (student_answer : value) (e : dict) (expected : data) (T : list data) (w : world) :
  dict_get problem_id answers = Some (DDict e) ->
  dict_get "type" e = Some (DStr "function") ->
  dict_get "answer" e = Some expected ->
  dict_get "test_cases" e = Some (DList T) ->
  T <> [] ->
  (forall f, student_answer <> VFunc f) ->
  check_answer py_repr answers problem_id student_answer w =
    (Return (Graded problem_id false (msg_tests 0 (List.length T)) (display_of e)
               student_answer), w).
Proof.
  intros Hd Ht Ha Hc HT Hn.
  rewrite (check_answer_typed py_repr _ _ _ _ _ _ _ Hd Ht Ha), compare_body_function.
  unfold try_except, bind. rewrite py_get_dict. unfold field_or. rewrite Hc.
  cbn [lift py_len py_iter]. rewrite (run_test_cases_not_callable _ _ _ _ Hn).
  destruct T as [|c T]; [now elim HT | reflexivity].
Qed.

Lemma count_passed_le (student_answer : value) (T : list data) (w : world) :
  (fst (count_passed student_answer T w) <= List.length T)%nat.
Proof.
  revert w. induction T as [|c T IH]; intros w; simpl; [lia|].
  destruct (case_passes student_answer c w) as [ok w1].
  specialize (IH w1). destruct (count_passed student_answer T w1) as [n w2].
  simpl in *. destruct ok; lia.
Qed.

Lemma count_passed_malformed (student_answer : value) (T : list data) (w : world) :
  existsb malformed_case T = true ->
  (fst (count_passed student_answer T w) < List.length T)%nat.
Proof.
  revert w. induction T as [|c T IH]; intros w; simpl; [discriminate|].
  intros H. apply orb_true_iff in H as [H|H].
  - unfold case_passes. unfold malformed_case in H.
    pose proof (count_passed_le student_answer T w) as Hle.
    destruct (py_getitem c "input"); [destruct (py_getitem c "output"); [discriminate|]|];
      destruct (count_passed student_answer T w) as [n w2]; simpl in *; lia.
  - destruct (case_passes student_answer c w) as [ok w1].
    specialize (IH w1 H). pose proof (count_passed_le student_answer T w1) as Hle.
    destruct (count_passed student_answer T w1) as [n w2]. simpl in *. destruct ok; lia.
Qed.

(** A test case that is not a dict with an [input] and an [output] can
    only fail: with one in the list, no submitted value is graded correct. *)
Theorem check_answer_function_malformed_case (answers : dict) (problem_id : string)
    (student_answer : value) (e : dict) (expected : data) (T : list data) (w : world) :
  dict_get problem_id answers = Some (DDict e) ->
  dict_get "type" e = Some (DStr "function") ->
  dict_get "answer" e = Some expected ->
  dict_get "test_cases" e = Some (DList T) ->
  existsb malformed_case T = true ->
  raises_exceptions_only student_answer ->
  exists passed w',
    check_answer py_repr answers problem_id student_answer w =
      (Return (Graded problem_id false (msg_tests passed (List.length T)) (display_of e)
                 student_answer), w') /\
    (passed < List.length T)%nat.
Proof.
  intros Hd Ht Ha Hc Hm Hs.
  rewrite (check_answer_typed py_repr _ _ _ _ _ _ _ Hd Ht Ha), compare_body_function.
  unfold try_except, bind. rewrite py_get_dict. unfold field_or. rewrite Hc.
  cbn [lift py_len py_iter]. rewrite (run_test_cases_spec _ _ Hs). cbn [Nat.add fst snd].
  pose proof (count_passed_malformed student_answer T w Hm) as Hlt.
  exists (fst (count_passed student_answer T w)), (snd (count_passed student_answer T w)).
  split; [|exact Hlt].
  destruct (Nat.eqb_spec (fst (count_passed student_answer T w)) (List.length T)) as [E|_];
    [lia | reflexivity].
Qed.

(** *** Patterns *)

(** [check_answer] on a string, for lists of strings as patterns. *)
Lemma check_answer_patterns (answers : dict) (problem_id : string) (e ex : dict)
    (code : string) (required forbidden : list string) (w : world) :
  dict_get problem_id answers = Some (DDict e) ->
  dict_get "type" e = Some (DStr "code_pattern") ->
  dict_get "answer" e = Some (DDict ex) ->
  field_or ex "required" (DList []) = DList (map DStr required) ->
  field_or ex "forbidden" (DList []) = DList (map DStr forbidden) ->
  check_answer py_repr answers problem_id (VData (DStr code)) w =
    (Return
       (match filter (fun p => negb (str_contains p code)) required,
              filter (fun p => str_contains p code) forbidden with
        | [], [] => Graded problem_id true msg_pattern_ok (display_of e) (VData (DStr code))
        | missing, found =>
            Graded problem_id false (pattern_feedback missing found) (display_of e)
              (VData (DStr code))
        end), w).
Proof.
  intros Hd Ht Ha Hr Hf.
  rewrite (check_answer_typed py_repr _ _ _ _ _ _ _ Hd Ht Ha), compare_body_code_pattern.
  unfold try_except, bind. rewrite !py_get_dict, Hr, Hf.
  cbn [lift py_iter]. rewrite missing_in_strings, found_in_strings.
  destruct (filter _ required); [destruct (filter _ forbidden)|]; reflexivity.
Qed.

(** An answer with neither [required] nor [forbidden]: every string is
    graded correct. *)
Theorem check_answer_no_patterns (answers : dict) (problem_id : string) (e ex : dict)
    (code : string) (w : world) :
  dict_get problem_id answers = Some (DDict e) ->
  dict_get "type" e = Some (DStr "code_pattern") ->
  dict_get "answer" e = Some (DDict ex) ->
  dict_get "required" ex = None ->
  dict_get "forbidden" ex = None ->
  check_answer py_repr answers problem_id (VData (DStr code)) w =
    (Return (Graded problem_id true msg_pattern_ok (display_of e) (VData (DStr code))), w).
Proof.
  intros Hd Ht Ha Hr Hf.
  apply (check_answer_patterns answers problem_id e ex code [] [] w Hd Ht Ha);
    unfold field_or; [now rewrite Hr | now rewrite Hf].
Qed.

Lemma str_contains_empty (s : string) : str_contains "" s = true.
Proof. destruct s; reflexivity. Qed.

(** The empty string occurs in every string: as a forbidden pattern it
    makes every submitted string wrong, whatever the other patterns. *)
Theorem check_answer_empty_forbidden_pattern (answers : dict) (problem_id : string)
    (e ex : dict) (code : string) (required forbidden : list string) (w : world) :
  dict_get problem_id answers = Some (DDict e) ->
  dict_get "type" e = Some (DStr "code_pattern") ->
  dict_get "answer" e = Some (DDict ex) ->
  field_or ex "required" (DList []) = DList (map DStr required) ->
  field_or ex "forbidden" (DList []) = DList (map DStr forbidden) ->
  In "" forbidden ->
  exists feedback,
    check_answer py_repr answers problem_id (VData (DStr code)) w =
      (Return (Graded problem_id false feedback (display_of e) (VData (DStr code))), w).
Proof.
  intros Hd Ht Ha Hr Hf Hin.
  rewrite (check_answer_patterns answers problem_id e ex code required forbidden w
             Hd Ht Ha Hr Hf).
  assert (H : In "" (filter (fun p => str_contains p code) forbidden))
    by (apply filter_In; split; [exact Hin | apply str_contains_empty]).
  destruct (filter (fun p => str_contains p code) forbidden) as [|f fs]; [now elim H|].
  destruct (filter _ required); eexists; reflexivity.
Qed.

Lemma missing_in_not_a_string (strings : list string) (pattern : data) (rest : list data)
    (code : string) :
  (forall p, pattern <> DStr p) ->
  missing_in (map DStr strings ++ pattern :: rest)%list code =
    type_error ("'in <string>' requires string as left operand, not " ++ type_name pattern).
Proof.
  intros Hn. induction strings as [|p l IH].
  - cbn [map app missing_in]. destruct pattern; try reflexivity. now elim (Hn s).
  - cbn [map app missing_in py_in_str obind]. now rewrite IH.
Qed.

(** A required pattern that is not a string: every submitted string is
    graded wrong, with the text of the [TypeError] of the first such
    pattern. *)
Theorem check_answer_pattern_not_a_string (answers : dict) (problem_id : string)
    (e ex : dict) (code : string) (strings : list string) (pattern : data)
    (rest : list data) (w : world) :
  dict_get problem_id answers = Some (DDict e) ->
  dict_get "type" e = Some (DStr "code_pattern") ->
  dict_get "answer" e = Some (DDict ex) ->
  dict_get "required" ex = Some (DList (map DStr strings ++ pattern :: rest)%list) ->
  (forall p, pattern <> DStr p) ->
  check_answer py_repr answers problem_id (VData (DStr code)) w =
    (Return (Graded problem_id false
               (msg_error_prefix ++ "'in <string>' requires string as left operand, not " ++
                type_name pattern)
               (display_of e) (VData (DStr code))), w).
Proof.
  intros Hd Ht Ha Hr Hn.
  rewrite (check_answer_typed py_repr _ _ _ _ _ _ _ Hd Ht Ha), compare_body_code_pattern.
  unfold try_except, bind. rewrite !py_get_dict. unfold field_or at 1. rewrite Hr.
  cbn [lift py_iter]. rewrite (missing_in_not_a_string _ _ _ _ Hn). reflexivity.
Qed.

(** *** Lists *)

(** [check_answer] on a list, against a list. *)
Lemma check_answer_lists (answers : dict) (problem_id : string) (e : dict)
    (submitted expected : list data) (w : world) :
  dict_get problem_id answers = Some (DDict e) ->
  dict_get "type" e = Some (DStr "list") ->
  dict_get "answer" e = Some (DList expected) ->
  check_answer py_repr answers problem_id (VData (DList submitted)) w =
    (Return
       (match py_sorted submitted, py_sorted expected with
        | Return ss, Return se =>
            Graded problem_id (py_eq (DList ss) (DList se))
              (if py_eq (DList ss) (DList se) then msg_correct else msg_list_differs)
              (display_of e) (VData (DList submitted))
        | Raise err, _ | Return _, Raise err =>
            Graded problem_id false (msg_error_prefix ++ exn_str err) (display_of e)
              (VData (DList submitted))
        end), w).
Proof.
  intros Hd Ht Ha.
  rewrite (check_answer_typed py_repr _ _ _ _ _ _ _ Hd Ht Ha), compare_body_list.
  unfold try_except, bind, lift.
  destruct (py_sorted submitted) as [ss|err] eqn:Es.
  - destruct (py_sorted expected) as [se|err] eqn:Ee; [reflexivity|].
    now rewrite (mild_py_sorted _ _ Ee).
  - now rewrite (mild_py_sorted _ _ Es).
Qed.

Lemma sorted_copies_equal_length (l1 l2 : list data) :
  sorted_copies_equal l1 l2 -> List.length l1 = List.length l2.
Proof.
  intros (s1 & s2 & H1 & H2 & He).
  apply py_sorted_perm, Permutation_length in H1, H2.
  cbn [py_eq] in He. apply seq_eqb_Forall2, Forall2_length in He. congruence.
Qed.

(** Two lists of different lengths: the submitted one is graded wrong,
    whatever the elements. *)
Theorem check_answer_list_lengths (answers : dict) (problem_id : string) (e : dict)
    (submitted expected : list data) (w : world) :
  dict_get problem_id answers = Some (DDict e) ->
  dict_get "type" e = Some (DStr "list") ->
  dict_get "answer" e = Some (DList expected) ->
  List.length submitted <> List.length expected ->
  exists feedback,
    check_answer py_repr answers problem_id (VData (DList submitted)) w =
      (Return (Graded problem_id false feedback (display_of e) (VData (DList submitted))), w).
Proof.
  intros Hd Ht Ha Hl. rewrite (check_answer_lists _ _ _ _ _ _ Hd Ht Ha).
  destruct (py_sorted submitted) as [ss|err] eqn:Es; [|eexists; reflexivity].
  destruct (py_sorted expected) as [se|err] eqn:Ee; [|eexists; reflexivity].
  destruct (py_eq (DList ss) (DList se)) eqn:E; [|eexists; reflexivity].
  elim Hl. apply sorted_copies_equal_length. now exists ss, se.
Qed.

Lemma sorted_from_raise (l : list data) (err : exn) :
  fold_left (fun r x => obind r (insert_sorted x)) l (Raise err) = Raise err.
Proof. induction l as [|x l IH]; simpl; [reflexivity | exact IH]. Qed.

(** The sort starts with [l[1] < l[0]]: where that raises, the sort does. *)
Lemma py_sorted_first_comparison (first second : data) (rest : list data) (err : exn) :
  py_lt second first = Raise err -> py_sorted (first :: second :: rest) = Raise err.
Proof.
  intros H. unfold py_sorted, sorted_from. cbn [fold_left obind insert_sorted].
  rewrite H. cbn [obind]. apply sorted_from_raise.
Qed.

(** An expected list whose second element cannot be compared with its first
    ([expected[1] < expected[0]] raises: it is the first comparison that
    [sorted(expected)] asks): no submitted list is graded correct.  The
    verdict is wrong with the text of an error; for a submitted list of
    mutually orderable elements, whose sort raises nothing, it is the text
    of the error of that comparison. *)
Theorem check_answer_list_unsortable (answers : dict) (problem_id : string) (e : dict)
    (submitted : list data) (first second : data) (rest : list data) (err : exn) (w : world) :
  dict_get problem_id answers = Some (DDict e) ->
  dict_get "type" e = Some (DStr "list") ->
  dict_get "answer" e = Some (DList (first :: second :: rest)) ->
  py_lt second first = Raise err ->
  (exists err',
     check_answer py_repr answers problem_id (VData (DList submitted)) w =
       (Return (Graded problem_id false (msg_error_prefix ++ exn_str err') (display_of e)
                  (VData (DList submitted))), w)) /\
  (mutually_orderable submitted = true ->
   check_answer py_repr answers problem_id (VData (DList submitted)) w =
     (Return (Graded problem_id false (msg_error_prefix ++ exn_str err) (display_of e)
                (VData (DList submitted))), w)).
Proof.
  intros Hd Ht Ha He. rewrite (check_answer_lists _ _ _ _ _ _ Hd Ht Ha).
  rewrite (py_sorted_first_comparison _ _ _ _ He). split.
  - destruct (py_sorted submitted) as [ss|err']; eexists; reflexivity.
  - intros Ho. unfold py_sorted.
    rewrite (sorted_from_in submitted Ho submitted []); [reflexivity | | constructor].
    now apply Forall_forall.
Qed.

(** *** Series, arrays and tables *)

(** A dict has a method called [values]: under [series_values] a
    submitted dict is taken for a Series, and graded wrong with the text of
    the [TypeError] of [list()] on that method. *)
Theorem check_answer_series_values_dict (answers : dict) (problem_id : string) (e : dict)
    (expected : data) (d : dict) (w : world) :
  dict_get problem_id answers = Some (DDict e) ->
  dict_get "type" e = Some (DStr "series_values") ->
  dict_get "answer" e = Some expected ->
  check_answer py_repr answers problem_id (VData (DDict d)) w =
    (Return (Graded problem_id false
               (msg_error_prefix ++ "'builtin_function_or_method' object is not iterable")
               (display_of e) (VData (DDict d))), w).
Proof.
  intros Hd Ht Ha. now rewrite (check_answer_typed py_repr _ _ _ _ _ _ _ Hd Ht Ha).
Qed.

Lemma compare_body_series_dtype (student_answer : value)
    (correct_answer expected tolerance : data) :
  compare_body py_repr student_answer correct_answer (DStr "series_dtype") expected tolerance =
    match getattr_dtype student_answer, getattr_values student_answer with
    | Some dtype, Some values =>
        expected_values <- lift (py_getitem expected "values") ;;
        expected_dtype <- lift (py_getitem expected "dtype") ;;
        student_values <- lift (list_of_attr values) ;;
        let values_match := py_eq (DList student_values) expected_values in
        let dtype_match := py_eq (DStr (py_str py_repr dtype)) expected_dtype in
        if values_match && dtype_match then ret (mk_compared true msg_correct)
        else if negb values_match then ret (mk_compared false msg_series_differs)
        else ret (mk_compared false
               ("dtype이 일치하지 않습니다. 현재: " ++ py_str py_repr dtype ++
                ", 기대값: " ++ py_str py_repr expected_dtype))
    | _, _ => ret (mk_compared false msg_need_series)
    end.
Proof. reflexivity. Qed.

(** Under [series_dtype], for an object with values and a dtype, against
    an answer with [values] and [dtype]: correct exactly when the values are
    equal and the text of the dtype is; where the values differ the feedback
    says so, whether the dtype differs or not, and the feedback on the dtype
    only shows with equal values. *)
Theorem check_answer_series_dtype (answers : dict) (problem_id : string) (e ex : dict)
    (o : pyobject) (dtype values expected_values expected_dtype : data)
    (student_values : list data) (w : world) :
  dict_get problem_id answers = Some (DDict e) ->
  dict_get "type" e = Some (DStr "series_dtype") ->
  dict_get "answer" e = Some (DDict ex) ->
  dict_get "values" ex = Some expected_values ->
  dict_get "dtype" ex = Some expected_dtype ->
  obj_dtype o = Some dtype ->
  obj_values o = Some values ->
  py_iter values = Return student_values ->
  let values_match := py_eq (DList student_values) expected_values in
  let dtype_match := py_eq (DStr (py_str py_repr dtype)) expected_dtype in
  check_answer py_repr answers problem_id (VObj o) w =
    (Return (Graded problem_id (values_match && dtype_match)
               (if values_match && dtype_match then msg_correct
                else if negb values_match then msg_series_differs
                else "dtype이 일치하지 않습니다. 현재: " ++ py_str py_repr dtype ++
                     ", 기대값: " ++ py_str py_repr expected_dtype)
               (display_of e) (VObj o)), w).
Proof.
  intros Hd Ht Ha Hv Hy Hod Hov Hi values_match dtype_match.
  rewrite (check_answer_typed py_repr _ _ _ _ _ _ _ Hd Ht Ha), compare_body_series_dtype.
  cbn [getattr_dtype getattr_values]. rewrite Hod, Hov. cbn [option_map].
  unfold try_except, bind, lift, py_getitem. rewrite Hv, Hy.
  unfold list_of_attr. rewrite Hi. fold values_match dtype_match.
  destruct (values_match && dtype_match); [reflexivity|].
  destruct (negb values_match); reflexivity.
Qed.

(** Plain data (a number, a string, a list, ...) is never taken for a
    table, a Series with a dtype or an array: under [dataframe],
    [series_dtype], [array_shape] and [array_values] it is graded wrong with
    the text that asks for the object, even where its content is the
    expected one. *)
Theorem check_answer_plain_data_is_no_object (answers : dict) (problem_id : string)
    (e : dict) (kind : string) (expected d : data) (w : world) :
  dict_get problem_id answers = Some (DDict e) ->
  dict_get "type" e = Some (DStr kind) ->
  dict_get "answer" e = Some expected ->
  In kind ["dataframe"; "series_dtype"; "array_shape"; "array_values"] ->
  check_answer py_repr answers problem_id (VData d) w =
    (Return (Graded problem_id false
               (if String.eqb kind "dataframe" then msg_need_dataframe
                else if String.eqb kind "series_dtype" then msg_need_series
                else msg_need_array)
               (display_of e) (VData d)), w).
Proof.
  intros Hd Ht Ha Hk. rewrite (check_answer_typed py_repr _ _ _ _ _ _ _ Hd Ht Ha).
  simpl in Hk. destruct Hk as [<-|[<-|[<-|[<-|[]]]]]; reflexivity.
Qed.

(** *** The feedback of a verdict *)

(** The flag and the feedback of a comparison agree. *)
Definition consistent (c : compared) : Prop :=
  cmp_match c = true <-> success_text (cmp_feedback c).

Lemma returns_ret {A : Type} (a : A) (Q : A -> Prop) : Q a -> returns (ret a) Q.
Proof. intros H w b w' E. injection E as <- _. exact H. Qed.

Lemma returns_bind {A B : Type} (m : M A) (k : A -> M B) (Q : B -> Prop) :
  (forall a, returns (k a) Q) -> returns (bind m k) Q.
Proof.
  intros H w b w'. unfold bind. destruct (m w) as [[a|e] w1]; [apply H | discriminate].
Qed.

Lemma returns_try {A : Type} (m : M A) (h : exn -> M A) (Q : A -> Prop) :
  returns m Q -> (forall e, returns (h e) Q) -> returns (try_except m h) Q.
Proof.
  intros Hm Hh w b w'. unfold try_except. destruct (m w) as [[a|e] w1] eqn:E.
  - intros H. injection H as <- _. exact (Hm _ _ _ E).
  - destruct (catchable e); [apply Hh | discriminate].
Qed.

Ltac not_success :=
  let H := fresh "H" in
  split; [discriminate|];
  intros [H|[H|H]]; exfalso; revert H;
  unfold msg_correct, msg_all_passed, msg_pattern_ok, msg_wrong, msg_need_number,
    msg_list_differs, msg_need_list, msg_dataframe_differs, msg_need_dataframe,
    msg_series_differs, msg_need_series, msg_need_code, msg_need_array, msg_array_differs,
    msg_unsupported, msg_error_prefix, msg_numeric_differs, msg_tests, msg_missing,
    msg_forbidden;
  cbn [cmp_feedback append]; discriminate.

Lemma consistent_success (feedback : string) :
  success_text feedback -> consistent (mk_compared true feedback).
Proof. intros H. split; [intros _; exact H | reflexivity]. Qed.

Lemma pattern_feedback_consistent (missing found : list string) :
  missing <> [] \/ found <> [] ->
  consistent (mk_compared false (pattern_feedback missing found)).
Proof.
  intros H. unfold pattern_feedback.
  destruct missing as [|m ms].
  - destruct found as [|f fs]; [destruct H as [H|H]; now elim H|].
    cbn [app String.concat]. not_success.
  - destruct found as [|f fs]; cbn [app String.concat]; not_success.
Qed.

Lemma consistent_verdict (matched : bool) (on_match on_mismatch : string) :
  success_text on_match -> consistent (mk_compared false on_mismatch) ->
  returns (verdict matched on_match on_mismatch) consistent.
Proof.
  intros H1 H2. unfold verdict. destruct matched; apply returns_ret;
    [now apply consistent_success | exact H2].
Qed.

Ltac consistent_step :=
  match goal with
  | |- returns (verdict _ msg_correct _) _ =>
      apply consistent_verdict; [now left | not_success]
  | |- returns (ret (mk_compared true _)) _ =>
      apply returns_ret, consistent_success; unfold success_text; tauto
  | |- returns (ret (mk_compared false (pattern_feedback _ _))) _ =>
      apply returns_ret, pattern_feedback_consistent;
      first [left; discriminate | right; discriminate]
  | |- returns (ret (mk_compared false _)) _ => apply returns_ret; not_success
  | |- returns (bind _ _) _ => apply returns_bind; intro
  | |- returns (if ?b then _ else _) _ => destruct b
  | |- returns (match ?x with _ => _ end) _ => destruct x
  | |- returns (let _ := _ in _) _ => cbv zeta
  end.

Lemma compare_body_consistent (student_answer : value)
    (correct_answer answer_type expected tolerance : data) :
  returns (compare_body py_repr student_answer correct_answer answer_type expected tolerance)
    consistent.
Proof. unfold compare_body. repeat consistent_step. Qed.

Lemma compare_answers_consistent (student_answer : value) (correct_answer : data) :
  returns (_compare_answers py_repr student_answer correct_answer) consistent.
Proof.
  unfold _compare_answers. repeat (apply returns_bind; intro).
  apply returns_try; [apply compare_body_consistent|].
  intros e. apply returns_ret. not_success.
Qed.

(** In every verdict of [check_answer], whatever the kind and the answer,
    the flag and the feedback agree: the answer is correct exactly when the
    feedback is one of the three texts of success. *)
Theorem check_answer_feedback_agrees (answers : dict) (problem_id : string)
    (student_answer : value) (w w' : world) (pid : string) (correct : bool)
    (feedback : string) (shown : data) (echo : value) :
  check_answer py_repr answers problem_id student_answer w =
    (Return (Graded pid correct feedback shown echo), w') ->
  (correct = true <-> success_text feedback).
Proof.
  unfold check_answer. destruct (dict_get problem_id answers) as [ca|]; [|discriminate].
  unfold bind at 1.
  destruct (_compare_answers py_repr student_answer ca w) as [[c|err] w1] eqn:E;
    [|discriminate].
  pose proof (compare_answers_consistent _ _ _ _ _ E) as Hc.
  unfold bind, lift. destruct (py_get ca "display_answer" (DStr hidden_answer)); [|discriminate].
  intros H. injection H as _ <- <- _ _ _. exact Hc.
Qed.

(** *** Numbers under the exact comparison, and the shape of an array *)

Lemma py_eq_number (a b : data) (x : num) :
  as_num b = Some x ->
  py_eq a b = match as_num a with Some s => num_eqb s x | None => false end.
Proof.
  intros Hb. destruct b; try discriminate Hb; injection Hb as <-; destruct a; reflexivity.
Qed.

(** Against an answer that is a number, the exact comparison (asked for, or
    by default) accepts the numbers equal to it, of whatever type of number
    ([True] for [1], [1.0] for [1]), and nothing else: no string, and no
    list of that number. *)
Theorem check_answer_exact_number (answers : dict) (problem_id : string) (e : dict)
    (expected d : data) (x : num) (w : world) :
  dict_get problem_id answers = Some (DDict e) ->
  field_or e "type" (DStr "exact") = DStr "exact" ->
  dict_get "answer" e = Some expected ->
  as_num expected = Some x ->
  let correct := match as_num d with Some s => num_eqb s x | None => false end in
  check_answer py_repr answers problem_id (VData d) w =
    (Return (Graded problem_id correct (if correct then msg_correct else msg_wrong)
               (display_of e) (VData d)), w).
Proof.
  intros Hd Ht Ha Hx correct.
  rewrite (check_answer_known py_repr _ _ _ _ _ Hd), (compare_answers_dict py_repr _ _ _ Ha), Ht.
  rewrite compare_body_exact. unfold try_except, verdict, ret. cbn [value_eq].
  rewrite (py_eq_number d expected x Hx). reflexivity.
Qed.

(** Under [array_shape], for an object with a shape against an expected
    list: correct exactly when the shape is the tuple of the expected items,
    and the feedback of a wrong answer shows the expected shape, whatever
    the [display_answer] of the descriptor, also without one. *)
Theorem check_answer_array_shape_shows_expected (answers : dict) (problem_id : string)
    (e : dict) (o : pyobject) (shape : data) (items : list data) (w : world) :
  dict_get problem_id answers = Some (DDict e) ->
  dict_get "type" e = Some (DStr "array_shape") ->
  dict_get "answer" e = Some (DList items) ->
  obj_shape o = Some shape ->
  let correct := py_eq shape (DTuple items) in
  check_answer py_repr answers problem_id (VObj o) w =
    (Return (Graded problem_id correct
               (if correct then msg_correct
                else "배열 형태가 틀렸습니다. 현재: " ++ py_str py_repr shape ++
                     ", 기대값: " ++ py_str py_repr (DTuple items))
               (display_of e) (VObj o)), w).
Proof.
  intros Hd Ht Ha Hs correct.
  rewrite (check_answer_typed py_repr _ _ _ _ _ _ _ Hd Ht Ha).
  unfold compare_body. cbn [py_eq as_num String.eqb Ascii.eqb Bool.eqb getattr_shape].
  rewrite Hs. reflexivity.
Qed.

End ComparatorProperties.

(** ** The loader and the comparison on examples *)

(** A network with one answers file that is an object, one that is a list,
    and nothing else. *)
Definition get_json_example (url : string) : outcome data :=
  if String.eqb url
       "https://raw.githubusercontent.com/lsy8647/lab_grading/refs/heads/main/test1/answers.json"
  then Return (DDict example_answers)
  else if String.eqb url
       "https://raw.githubusercontent.com/lsy8647/lab_grading/refs/heads/main/test2/answers.json"
  then Return (DList [DStr "problem_1"])
  else Raise (mk_exn (UserException "HTTPError") "404 Client Error: Not Found").

(** An object like the Series of [1] and [2]: its [==] answers element by
    element, and the Series it gives has no truth value. *)
Definition series_example : pyobject :=
  mk_object "Series" None (Some (DList [DInt 1; DInt 2])) (Some (DStr "int64"))
    (Some (DTuple [DInt 2])) (Some (DList [DInt 1; DInt 2]))
    (fun _ => NoTruth "ValueError"
       "The truth value of a Series is ambiguous. Use a.empty, a.bool(), a.item(), a.any() or a.all().").

(** An object that compares as the number [42], as a numpy integer does
    against a number, and that is equal to nothing else. *)
Definition int64_example : pyobject :=
  mk_object "int64" None None (Some (DStr "int64")) (Some (DTuple [])) (Some (DInt 42))
    (fun d => match as_num d with
              | Some x => if num_eqb (NInt 42) x then Truthy else Falsy
              | None => Falsy
              end).

(** More descriptors. *)
Definition more_answers : dict :=
  [ ("bad_1", DInt 3);
    ("typo_1", DDict [("type", DStr "Numeric"); ("answer", DInt 1)]);
    ("int_1", DDict [("type", DStr "numeric"); ("answer", DInt 10); ("tolerance", DInt (-1))]);
    ("tol_1", DDict [("type", DStr "numeric"); ("answer", DInt 1); ("tolerance", DStr "0.5")]);
    ("function_5", DDict [("type", DStr "function"); ("answer", DNone);
                          ("test_cases", DList [DDict [("input", DList [DInt 1; DInt 2])]])]);
    ("pattern_2", DDict [("type", DStr "code_pattern"); ("answer", DDict [])]);
    ("pattern_3", DDict [("type", DStr "code_pattern");
                         ("answer", DDict [("forbidden", DList [DStr ""])])]);
    ("pattern_4", DDict [("type", DStr "code_pattern");
                         ("answer", DDict [("required", DList [DStr "plot("; DInt 5])])]);
    ("series_1", DDict [("type", DStr "series_values"); ("answer", DList [DInt 1; DInt 2])]);
    ("series_2", DDict [("type", DStr "series_dtype");
                        ("answer", DDict [("values", DList [DInt 1; DInt 2]);
                                          ("dtype", DStr "float64")])]);
    ("array_1", DDict [("type", DStr "array_values"); ("answer", DList [DInt 1; DInt 2])]);
    ("shape_1", DDict [("type", DStr "array_shape"); ("answer", DList [DInt 2; DInt 3])]);
    ("count_1", DDict [("answer", DInt 1)]) ].

Definition check_more (problem_id : string) (student_answer : value) (w : world)
  : outcome check_result * world :=
  check_answer repr_example more_answers problem_id student_answer w.

(** The URL the global grader fetches the answers of a lab from. *)
Example grader_url :
  repo_url grader ++ "/" ++ ("test1" ++ "/answers.json") =
    "https://raw.githubusercontent.com/lsy8647/lab_grading/refs/heads/main/test1/answers.json".
Proof. reflexivity. Qed.

Lemma fetch_answer_file_contains_failures_witness :
  fetch_answer_file get_json_example grader "midterm/answers.json" w0 =
    (Return (DDict []),
     mk_world (DInt 0) ["❌ 정답 파일을 가져오는데 실패했습니다: 404 Client Error: Not Found"]).
Proof.
  exact (proj1 (proj2 (fetch_answer_file_contains_failures get_json_example grader
                         "midterm/answers.json" w0)) _ eq_refl eq_refl).
Defined.

Lemma check_answer_fetch_failed_witness :
  AutoGrader_check_answer repr_example get_json_example grader "exact_1" (VData (DInt 42))
    "midterm/answers.json" w0 =
    (Return (NotFound "error" (msg_not_found "exact_1")),
     mk_world (DInt 0) ["❌ 정답 파일을 가져오는데 실패했습니다: 404 Client Error: Not Found"]).
Proof.
  exact (check_answer_fetch_failed repr_example get_json_example grader "exact_1"
           (VData (DInt 42)) "midterm/answers.json" _ w0 eq_refl eq_refl).
Defined.

Lemma check_answer_fetched_witness :
  AutoGrader_check_answer repr_example get_json_example grader "exact_1" (VData (DInt 42))
    "test1/answers.json" w0 =
    check_example "exact_1" (VData (DInt 42)) w0.
Proof.
  exact (check_answer_fetched repr_example get_json_example grader "exact_1"
           (VData (DInt 42)) "test1/answers.json" example_answers w0 eq_refl).
Defined.

Lemma check_answer_answers_not_an_object_witness :
  exists text,
    AutoGrader_check_answer repr_example get_json_example grader "problem_1" (VData (DInt 42))
      "test2/answers.json" w0 =
      (Raise (mk_exn TypeError text), w0).
Proof.
  exact (proj1 (check_answer_answers_not_an_object repr_example get_json_example grader
                  "problem_1" (VData (DInt 42)) "test2/answers.json" _ w0 eq_refl)
           [DStr "problem_1"] eq_refl).
Defined.

Lemma submit_answer_fetch_failed_witness :
  submit_answer_online repr_example upper_ascii get_json_example "exact_1" (VData (DInt 42))
    "midterm" w0 =
    (Raise (mk_exn KeyError "'problem_id'"),
     mk_world (DInt 0)
       ["❌ 정답 파일을 가져오는데 실패했습니다: 404 Client Error: Not Found"; rule]).
Proof.
  exact (submit_answer_fetch_failed repr_example upper_ascii get_json_example "exact_1"
           (VData (DInt 42)) "midterm" _ w0 eq_refl eq_refl).
Defined.

Lemma submit_answer_fetched_witness :
  submit_answer_online repr_example upper_ascii get_json_example "exact_1" (VData (DInt 41))
    "test1" w0 =
    submit_answer repr_example upper_ascii (fun _ => example_answers) "exact_1"
      (VData (DInt 41)) "test1" w0.
Proof.
  exact (submit_answer_fetched repr_example upper_ascii get_json_example "exact_1"
           (VData (DInt 41)) "test1" example_answers w0 eq_refl).
Defined.

Lemma submit_answer_unknown_witness :
  dict_get "problem_9" (fetch_example ("test1" ++ "/answers.json")) = None /\
  submit_answer repr_example upper_ascii fetch_example "problem_9" (VData (DInt 4)) "test1" w0 =
    (Raise (mk_exn KeyError "'problem_id'"), mk_world (DInt 0) [rule]).
Proof.
  split; [reflexivity|].
  exact (submit_answer_unknown repr_example upper_ascii fetch_example "problem_9"
           (VData (DInt 4)) "test1" w0 eq_refl).
Defined.

Lemma create_lab_functions_registers_witness :
  dict_get "check_problem_2" (create_lab_functions "test1" 2 [("check_problem_2", GCheck "problem_2" "old")]) =
    Some (GCheck "problem_2" "test1").
Proof.
  exact (create_lab_functions_registers "test1" 2 [("check_problem_2", GCheck "problem_2" "old")]
           2 (conj (proj1 (Z.leb_le 1 2) eq_refl) (proj1 (Z.leb_le 2 2) eq_refl))).
Defined.

Lemma check_answer_answer_absent_witness :
  check_example "function_3" add_callable w0 = (Raise (mk_exn KeyError "'answer'"), w0).
Proof.
  exact (check_answer_answer_absent repr_example example_answers "function_3" add_callable
           _ w0 eq_refl eq_refl).
Defined.

Lemma check_answer_descriptor_not_a_dict_witness :
  check_more "bad_1" (VData (DInt 3)) w0 =
    (Raise (mk_exn AttributeError "'int' object has no attribute 'get'"), w0).
Proof.
  exact (check_answer_descriptor_not_a_dict repr_example more_answers "bad_1" (VData (DInt 3))
           (DInt 3) w0 eq_refl (fun e H => eq_ind (DInt 3)
              (fun d => match d with DInt _ => True | _ => False end) I _ H)).
Defined.

Lemma check_answer_unsupported_type_witness :
  check_more "typo_1" (VData (DInt 1)) w0 =
    (Return (Graded "typo_1" false msg_unsupported (DStr hidden_answer) (VData (DInt 1))), w0).
Proof.
  exact (check_answer_unsupported_type repr_example more_answers "typo_1" (VData (DInt 1))
           _ (DStr "Numeric") (DInt 1) w0 eq_refl eq_refl eq_refl eq_refl).
Defined.

(** A callable that would change the state, under a kind that is not
    [function]: it is not called. *)
Lemma stateless_check_answer_kind_witness :
  stateless (check_answer repr_example example_answers "exact_1" once_callable).
Proof.
  exact (stateless_check_answer_kind repr_example example_answers "exact_1" once_callable
           _ eq_refl eq_refl).
Defined.

Lemma check_answer_numeric_integers_witness :
  exists feedback,
    check_more "int_1" (VData (DInt 10)) w0 =
      (Return (Graded "int_1" (Z.abs (10 - 10) <=? -1) feedback (DStr hidden_answer)
                 (VData (DInt 10))), w0) /\
    (-1 < 0 -> (Z.abs (10 - 10) <=? -1) = false) /\
    (-1 = 0 -> (Z.abs (10 - 10) <=? -1) = (10 =? 10)).
Proof.
  exact (check_answer_numeric_integers repr_example more_answers "int_1" _ 10 10 (-1) w0
           eq_refl eq_refl eq_refl eq_refl).
Defined.

Lemma check_answer_numeric_bad_tolerance_witness :
  check_more "tol_1" (VData (DInt 1)) w0 =
    (Return (Graded "tol_1" false
               (msg_error_prefix ++ "'<=' not supported between instances of 'int' and 'str'")
               (DStr hidden_answer) (VData (DInt 1))), w0).
Proof.
  exact (check_answer_numeric_bad_tolerance repr_example more_answers "tol_1" (VData (DInt 1))
           _ (DInt 1) (DStr "0.5") (NInt 1) (NInt 1) w0
           eq_refl eq_refl eq_refl eq_refl eq_refl eq_refl eq_refl).
Defined.

Lemma check_answer_function_not_callable_witness :
  check_example "function_1" (VData (DInt 5)) w0 =
    (Return (Graded "function_1" false (msg_tests 0 2) (DStr hidden_answer) (VData (DInt 5))),
     w0).
Proof.
  refine (check_answer_function_not_callable repr_example example_answers "function_1"
            (VData (DInt 5)) _ DNone
            [test_case (DList [DInt 2; DInt 3]) (DInt 5);
             test_case (DList [DInt 0; DInt 0]) (DInt 0)] w0
            eq_refl eq_refl eq_refl eq_refl _ _).
  - discriminate.
  - intros f; discriminate.
Defined.

Lemma check_answer_function_malformed_case_witness :
  exists passed w',
    check_more "function_5" add_callable w0 =
      (Return (Graded "function_5" false (msg_tests passed 1) (DStr hidden_answer)
                 add_callable), w') /\
    (passed < 1)%nat.
Proof.
  exact (check_answer_function_malformed_case repr_example more_answers "function_5"
           add_callable _ DNone [DDict [("input", DList [DInt 1; DInt 2])]] w0
           eq_refl eq_refl eq_refl eq_refl eq_refl add_raises_exceptions_only).
Defined.

Lemma check_answer_no_patterns_witness :
  check_more "pattern_2" (VData (DStr "import os")) w0 =
    (Return (Graded "pattern_2" true msg_pattern_ok (DStr hidden_answer)
               (VData (DStr "import os"))), w0).
Proof.
  exact (check_answer_no_patterns repr_example more_answers "pattern_2" _ [] "import os" w0
           eq_refl eq_refl eq_refl eq_refl eq_refl).
Defined.

Lemma check_answer_empty_forbidden_pattern_witness :
  exists feedback,
    check_more "pattern_3" (VData (DStr "x = 1")) w0 =
      (Return (Graded "pattern_3" false feedback (DStr hidden_answer) (VData (DStr "x = 1"))),
       w0).
Proof.
  exact (check_answer_empty_forbidden_pattern repr_example more_answers "pattern_3" _ _
           "x = 1" [] [""] w0 eq_refl eq_refl eq_refl eq_refl eq_refl (or_introl eq_refl)).
Defined.

Lemma check_answer_pattern_not_a_string_witness :
  check_more "pattern_4" (VData (DStr "plt.plot(x)")) w0 =
    (Return (Graded "pattern_4" false
               (msg_error_prefix ++ "'in <string>' requires string as left operand, not int")
               (DStr hidden_answer) (VData (DStr "plt.plot(x)"))), w0).
Proof.
  refine (check_answer_pattern_not_a_string repr_example more_answers "pattern_4" _ _
            "plt.plot(x)" ["plot("] (DInt 5) [] w0 eq_refl eq_refl eq_refl eq_refl _).
  intros p; discriminate.
Defined.

Lemma check_answer_list_lengths_witness :
  exists feedback,
    check_example "list_1" (VData (DList [DInt 1; DInt 2])) w0 =
      (Return (Graded "list_1" false feedback (DStr hidden_answer)
                 (VData (DList [DInt 1; DInt 2]))), w0).
Proof.
  refine (check_answer_list_lengths repr_example example_answers "list_1" _
            [DInt 1; DInt 2] [DInt 1; DInt 2; DInt 3] w0 eq_refl eq_refl eq_refl _).
  discriminate.
Defined.

Lemma check_answer_list_unsortable_witness :
  (exists err',
     check_example "list_2" (VData (DList [DInt 2; DInt 1])) w0 =
       (Return (Graded "list_2" false (msg_error_prefix ++ exn_str err') (DStr hidden_answer)
                  (VData (DList [DInt 2; DInt 1]))), w0)) /\
  (mutually_orderable [DInt 2; DInt 1] = true ->
   check_example "list_2" (VData (DList [DInt 2; DInt 1])) w0 =
     (Return (Graded "list_2" false
                (msg_error_prefix ++ "'<' not supported between instances of 'str' and 'int'")
                (DStr hidden_answer) (VData (DList [DInt 2; DInt 1]))), w0)).
Proof.
  exact (check_answer_list_unsortable repr_example example_answers "list_2" _
           [DInt 2; DInt 1] (DInt 1) (DStr "a") []
           (mk_exn TypeError "'<' not supported between instances of 'str' and 'int'") w0
           eq_refl eq_refl eq_refl eq_refl).
Defined.

Lemma check_answer_series_values_dict_witness :
  check_more "series_1" (VData (DDict [("values", DList [DInt 1; DInt 2])])) w0 =
    (Return (Graded "series_1" false
               (msg_error_prefix ++ "'builtin_function_or_method' object is not iterable")
               (DStr hidden_answer) (VData (DDict [("values", DList [DInt 1; DInt 2])]))), w0).
Proof.
  exact (check_answer_series_values_dict repr_example more_answers "series_1" _
           (DList [DInt 1; DInt 2]) [("values", DList [DInt 1; DInt 2])] w0
           eq_refl eq_refl eq_refl).
Defined.

(** Equal values, and a dtype that is not the expected one. *)
Lemma check_answer_series_dtype_witness :
  check_more "series_2" (VObj series_example) w0 =
    (Return (Graded "series_2" false "dtype이 일치하지 않습니다. 현재: int64, 기대값: float64"
               (DStr hidden_answer) (VObj series_example)), w0).
Proof.
  exact (check_answer_series_dtype repr_example more_answers "series_2" _ _ series_example
           (DStr "int64") (DList [DInt 1; DInt 2]) (DList [DInt 1; DInt 2]) (DStr "float64")
           [DInt 1; DInt 2] w0
           eq_refl eq_refl eq_refl eq_refl eq_refl eq_refl eq_refl eq_refl).
Defined.

(** The list of the expected values is not an array. *)
Lemma check_answer_plain_data_is_no_object_witness :
  check_more "array_1" (VData (DList [DInt 1; DInt 2])) w0 =
    (Return (Graded "array_1" false msg_need_array (DStr hidden_answer)
               (VData (DList [DInt 1; DInt 2]))), w0).
Proof.
  exact (check_answer_plain_data_is_no_object repr_example more_answers "array_1" _
           "array_values" (DList [DInt 1; DInt 2]) (DList [DInt 1; DInt 2]) w0
           eq_refl eq_refl eq_refl (or_intror (or_intror (or_intror (or_introl eq_refl))))).
Defined.

Lemma check_answer_feedback_agrees_witness :
  true = true <-> success_text msg_correct.
Proof.
  exact (check_answer_feedback_agrees repr_example example_answers "exact_1" (VData (DInt 42))
           w0 w0 "exact_1" true msg_correct (DStr "42") (VData (DInt 42)) eq_refl).
Defined.

Lemma create_lab_functions_keeps_others_witness :
  dict_get "grader"
    (create_lab_functions "test1" 2 [("grader", GValue (VData DNone))]) =
    Some (GValue (VData DNone)).
Proof.
  refine (proj1 (create_lab_functions_keeps_others "test1" 2 [("grader", GValue (VData DNone))])
            "grader" _).
  intros i _ H. discriminate H.
Defined.

(** [True] for the answer [1], and the string of the number. *)
Lemma check_answer_exact_number_witness :
  check_more "count_1" (VData (DBool true)) w0 =
    (Return (Graded "count_1" true msg_correct (DStr hidden_answer) (VData (DBool true))), w0) /\
  check_more "count_1" (VData (DStr "1")) w0 =
    (Return (Graded "count_1" false msg_wrong (DStr hidden_answer) (VData (DStr "1"))), w0).
Proof.
  split.
  - exact (check_answer_exact_number repr_example more_answers "count_1" _ (DInt 1)
             (DBool true) (NInt 1) w0 eq_refl eq_refl eq_refl eq_refl).
  - exact (check_answer_exact_number repr_example more_answers "count_1" _ (DInt 1)
             (DStr "1") (NInt 1) w0 eq_refl eq_refl eq_refl eq_refl).
Defined.

(** An array of three rows and two columns, where two rows and three
    columns are expected. *)
Definition array_example : pyobject :=
  mk_object "ndarray" None None (Some (DStr "int64")) (Some (DTuple [DInt 3; DInt 2]))
    (Some (DList [DList [DInt 1; DInt 2]; DList [DInt 3; DInt 4]; DList [DInt 5; DInt 6]]))
    (fun _ => NoTruth "ValueError"
       "The truth value of an array with more than one element is ambiguous. Use a.any() or a.all()").

Lemma check_answer_array_shape_shows_expected_witness :
  check_more "shape_1" (VObj array_example) w0 =
    (Return (Graded "shape_1" false
               "배열 형태가 틀렸습니다. 현재: (3, 2), 기대값: (2, 3)"
               (DStr hidden_answer) (VObj array_example)), w0).
Proof.
  exact (check_answer_array_shape_shows_expected repr_example more_answers "shape_1" _
           array_example (DTuple [DInt 3; DInt 2]) [DInt 2; DInt 3] w0
           eq_refl eq_refl eq_refl eq_refl).
Defined.

(** ** Objects under the exact comparison *)

(** A Series against the answer [42]: the comparison has no truth value,
    the error is caught, and the answer is graded wrong with its text. *)
Example exact_series_has_no_truth_value :
  check_example "exact_1" (VObj series_example) w0 =
    (Return (Graded "exact_1" false
               (msg_error_prefix ++
                "The truth value of a Series is ambiguous. Use a.empty, a.bool(), a.item(), a.any() or a.all().")
               (DStr "42") (VObj series_example)), w0).
Proof. reflexivity. Qed.

(** An object that compares as the number [42] is graded correct. *)
Example exact_object_equal_to_the_answer :
  check_example "exact_1" (VObj int64_example) w0 =
    (Return (Graded "exact_1" true msg_correct (DStr "42") (VObj int64_example)), w0).
Proof. reflexivity. Qed.

(** A test case whose result is an array: the comparison with the output
    has no truth value, and the case fails as one whose call fails. *)
Example case_with_array_result_fails :
  case_passes (VFunc (fun w _ => (Return (VObj array_example), w)))
    (test_case (DInt 1) (DInt 1)) w0 = (false, w0) /\
  run_test_case (VFunc (fun w _ => (Return (VObj array_example), w)))
    (test_case (DInt 1) (DInt 1)) w0 = (Return false, w0).
Proof. split; reflexivity. Qed.
